(** * layerConvDWBNRelu9: tile scheduling and double-buffered transfers

    A shallow embedding of
    [applications/MobileNetV1/DORY_network/src/layerConvDWBNRelu9.c].

    The C function is one straight-line prologue followed by a [for] loop of
    [8*1*1] iterations.  Every core of the cluster runs the same function
    (SPMD); the only place where cores differ is [pi_core_id()==0].  The
    embedding therefore describes the run of one core, with the core number
    as a parameter, as

    - a scheduler state (the variables that live across iterations), and
    - the sequence of calls made to the DMA, barrier and kernel primitives,
      which are external to the file.

    Integers of C type [int] are modelled in [Z]; they stay in [0, 8] during
    the whole run (lemma [run_indices_small]), so no overflow is possible.
    Arithmetic on [unsigned int] and pointers is taken modulo [2^32], and
    conversions to [uint16_t]/[unsigned short] modulo [2^16]. *)

From Stdlib Require Import ZArith List Bool Lia.
Import ListNotations.
Local Open Scope Z_scope.

Set Implicit Arguments.

(** ** C arithmetic *)

Module CInt.

Definition u32 (z : Z) : Z := z mod 2 ^ 32.
Definition u16 (z : Z) : Z := z mod 2 ^ 16.

(** [!x] *)
Definition lnot (z : Z) : Z := if z =? 0 then 1 else 0.

(** a C scalar used as a condition *)
Definition truthy (z : Z) : bool := negb (z =? 0).

(** [x != y] *)
Definition neq (x y : Z) : bool := negb (x =? y).

End CInt.
Import CInt.

(** ** Data *)

(** The thirteen words of the parameter block, [real_arg[0..12]]. *)
Record layer_args : Type := {
  l3_x : Z;
  l3_y : Z;
  l3_W : Z;
  l2_x : Z;
  l2_x_2 : Z;
  l2_y : Z;
  l2_W : Z;
  l1_buffer : Z;
  hyperram : Z;
  out_mult_in : Z;
  inmul1 : Z;
  inmul2 : Z;
  out_shift_in : Z
}.

Inductive pi_cl_dma_dir : Type :=
| PI_CL_DMA_DIR_LOC2EXT
| PI_CL_DMA_DIR_EXT2LOC.

(** The fields of [pi_cl_dma_copy_t] that the layer assigns. *)
Record pi_cl_dma_copy_t : Type := {
  copy_dir : pi_cl_dma_dir;
  copy_merge : Z;
  copy_size : Z;
  copy_id : Z;
  copy_ext : Z;
  copy_loc : Z
}.

(** A call [dory_get_tile_3d(x, i, j, k, ...)].  The function belongs to the
    DORY runtime and is not part of this file, so the call is recorded with
    its sixteen arguments instead of being evaluated. *)
Record tile_3d : Type := {
  tile_base : Z;
  tile_i : Z;
  tile_j : Z;
  tile_k : Z;
  tile_size_i : Z;
  tile_size_j : Z;
  tile_size_k : Z;
  tile_stride_j : Z;
  tile_stride_k : Z;
  tile_overlap_i : Z;
  tile_overlap_j : Z;
  tile_overlap_k : Z;
  tile_offset_i : Z;
  tile_offset_j : Z;
  tile_offset_k : Z;
  tile_data_size : Z
}.

(** External (L2) address of a 3D transfer: a plain address, or the result
    of [dory_get_tile_3d]. *)
Inductive ext_addr : Type :=
| ExtAt (a : Z)
| ExtTile (t : tile_3d).

(** Arguments of [dory_dma_memcpy_3d_custom_*], without the event pointer. *)
Record dma_3d : Type := {
  dma_ext : ext_addr;
  dma_loc : Z;
  dma_size : Z;
  dma_stride_1 : Z;
  dma_stride_0 : Z;
  dma_length_2 : Z;
  dma_length_0 : Z;
  dma_dir : Z
}.

(** Arguments of [pulp_nn_depthwise_generic], in the order of the call,
    without the event pointer. *)
Record kernel_call : Type := {
  k_x : Z;
  k_x_tile_size_w : Z;
  k_x_tile_size_h : Z;
  k_x_tile_size_nif : Z;
  k_W : Z;
  k_y_tile_size_nof : Z;
  k_dim_kernel_x : Z;
  k_dim_kernel_y : Z;
  k_p_t : Z;
  k_p_b : Z;
  k_p_l : Z;
  k_p_r : Z;
  k_stride_x : Z;
  k_stride_y : Z;
  k_bias : Z;
  k_bias_shift : Z;
  k_out_shift : Z;
  k_out_mult : Z;
  k_y : Z;
  k_y_tile_size_w : Z;
  k_y_tile_size_h : Z;
  k_k : Z;
  k_lambda : Z;
  k_im2col : Z;
  k_pwt_buffer : Z;
  k_flag_relu : Z;
  k_flag_batch_norm : Z
}.

(** The two DMA descriptors of the function. *)
Inductive copy_var : Type :=
| Copy_k
| Copy_lambda.

(** What one core asks of its environment, in program order. *)
Inductive event : Type :=
| pi_cl_team_barrier
| dory_dma_memcpy_3d_custom_hwc_to_chw (d : dma_3d)
| dory_dma_memcpy_3d_custom_blocking (d : dma_3d)
| pi_cl_dma_memcpy (v : copy_var) (c : pi_cl_dma_copy_t)
| pi_cl_dma_wait (v : copy_var) (c : option pi_cl_dma_copy_t)
| pulp_nn_depthwise_generic (k : kernel_call).

(** The variables that carry information from one iteration to the next.
    [copy_k] and [copy_lambda] are [None] as long as the core has not
    written the descriptor. *)
Record sched_state : Type := {
  db_state_x : Z;
  db_state_W : Z;
  db_state_y : Z;
  iter : Z;
  _i_nof_load : Z;
  _i_nif_load : Z;
  _i_h_load : Z;
  _i_w_load : Z;
  _i_nof_exec : Z;
  _i_nif_exec : Z;
  _i_h_exec : Z;
  _i_w_exec : Z;
  copy_k : option pi_cl_dma_copy_t;
  copy_lambda : option pi_cl_dma_copy_t
}.

(** Assignment to one variable of the state. *)

Definition set_db_state_x (v : Z) (s : sched_state) : sched_state :=
  {| db_state_x := v; db_state_W := db_state_W s; db_state_y := db_state_y s;
     iter := iter s; _i_nof_load := _i_nof_load s;
     _i_nif_load := _i_nif_load s; _i_h_load := _i_h_load s;
     _i_w_load := _i_w_load s; _i_nof_exec := _i_nof_exec s;
     _i_nif_exec := _i_nif_exec s; _i_h_exec := _i_h_exec s;
     _i_w_exec := _i_w_exec s; copy_k := copy_k s;
     copy_lambda := copy_lambda s |}.

Definition set_db_state_W (v : Z) (s : sched_state) : sched_state :=
  {| db_state_x := db_state_x s; db_state_W := v; db_state_y := db_state_y s;
     iter := iter s; _i_nof_load := _i_nof_load s;
     _i_nif_load := _i_nif_load s; _i_h_load := _i_h_load s;
     _i_w_load := _i_w_load s; _i_nof_exec := _i_nof_exec s;
     _i_nif_exec := _i_nif_exec s; _i_h_exec := _i_h_exec s;
     _i_w_exec := _i_w_exec s; copy_k := copy_k s;
     copy_lambda := copy_lambda s |}.

Definition set_iter (v : Z) (s : sched_state) : sched_state :=
  {| db_state_x := db_state_x s; db_state_W := db_state_W s;
     db_state_y := db_state_y s; iter := v; _i_nof_load := _i_nof_load s;
     _i_nif_load := _i_nif_load s; _i_h_load := _i_h_load s;
     _i_w_load := _i_w_load s; _i_nof_exec := _i_nof_exec s;
     _i_nif_exec := _i_nif_exec s; _i_h_exec := _i_h_exec s;
     _i_w_exec := _i_w_exec s; copy_k := copy_k s;
     copy_lambda := copy_lambda s |}.

Definition set_i_nof_load (v : Z) (s : sched_state) : sched_state :=
  {| db_state_x := db_state_x s; db_state_W := db_state_W s;
     db_state_y := db_state_y s; iter := iter s; _i_nof_load := v;
     _i_nif_load := _i_nif_load s; _i_h_load := _i_h_load s;
     _i_w_load := _i_w_load s; _i_nof_exec := _i_nof_exec s;
     _i_nif_exec := _i_nif_exec s; _i_h_exec := _i_h_exec s;
     _i_w_exec := _i_w_exec s; copy_k := copy_k s;
     copy_lambda := copy_lambda s |}.

Definition set_i_nif_load (v : Z) (s : sched_state) : sched_state :=
  {| db_state_x := db_state_x s; db_state_W := db_state_W s;
     db_state_y := db_state_y s; iter := iter s;
     _i_nof_load := _i_nof_load s; _i_nif_load := v;
     _i_h_load := _i_h_load s; _i_w_load := _i_w_load s;
     _i_nof_exec := _i_nof_exec s; _i_nif_exec := _i_nif_exec s;
     _i_h_exec := _i_h_exec s; _i_w_exec := _i_w_exec s; copy_k := copy_k s;
     copy_lambda := copy_lambda s |}.

Definition set_i_h_load (v : Z) (s : sched_state) : sched_state :=
  {| db_state_x := db_state_x s; db_state_W := db_state_W s;
     db_state_y := db_state_y s; iter := iter s;
     _i_nof_load := _i_nof_load s; _i_nif_load := _i_nif_load s;
     _i_h_load := v; _i_w_load := _i_w_load s; _i_nof_exec := _i_nof_exec s;
     _i_nif_exec := _i_nif_exec s; _i_h_exec := _i_h_exec s;
     _i_w_exec := _i_w_exec s; copy_k := copy_k s;
     copy_lambda := copy_lambda s |}.

Definition set_i_w_load (v : Z) (s : sched_state) : sched_state :=
  {| db_state_x := db_state_x s; db_state_W := db_state_W s;
     db_state_y := db_state_y s; iter := iter s;
     _i_nof_load := _i_nof_load s; _i_nif_load := _i_nif_load s;
     _i_h_load := _i_h_load s; _i_w_load := v; _i_nof_exec := _i_nof_exec s;
     _i_nif_exec := _i_nif_exec s; _i_h_exec := _i_h_exec s;
     _i_w_exec := _i_w_exec s; copy_k := copy_k s;
     copy_lambda := copy_lambda s |}.

Definition set_i_nof_exec (v : Z) (s : sched_state) : sched_state :=
  {| db_state_x := db_state_x s; db_state_W := db_state_W s;
     db_state_y := db_state_y s; iter := iter s;
     _i_nof_load := _i_nof_load s; _i_nif_load := _i_nif_load s;
     _i_h_load := _i_h_load s; _i_w_load := _i_w_load s; _i_nof_exec := v;
     _i_nif_exec := _i_nif_exec s; _i_h_exec := _i_h_exec s;
     _i_w_exec := _i_w_exec s; copy_k := copy_k s;
     copy_lambda := copy_lambda s |}.

Definition set_i_nif_exec (v : Z) (s : sched_state) : sched_state :=
  {| db_state_x := db_state_x s; db_state_W := db_state_W s;
     db_state_y := db_state_y s; iter := iter s;
     _i_nof_load := _i_nof_load s; _i_nif_load := _i_nif_load s;
     _i_h_load := _i_h_load s; _i_w_load := _i_w_load s;
     _i_nof_exec := _i_nof_exec s; _i_nif_exec := v;
     _i_h_exec := _i_h_exec s; _i_w_exec := _i_w_exec s; copy_k := copy_k s;
     copy_lambda := copy_lambda s |}.

Definition set_i_h_exec (v : Z) (s : sched_state) : sched_state :=
  {| db_state_x := db_state_x s; db_state_W := db_state_W s;
     db_state_y := db_state_y s; iter := iter s;
     _i_nof_load := _i_nof_load s; _i_nif_load := _i_nif_load s;
     _i_h_load := _i_h_load s; _i_w_load := _i_w_load s;
     _i_nof_exec := _i_nof_exec s; _i_nif_exec := _i_nif_exec s;
     _i_h_exec := v; _i_w_exec := _i_w_exec s; copy_k := copy_k s;
     copy_lambda := copy_lambda s |}.

Definition set_i_w_exec (v : Z) (s : sched_state) : sched_state :=
  {| db_state_x := db_state_x s; db_state_W := db_state_W s;
     db_state_y := db_state_y s; iter := iter s;
     _i_nof_load := _i_nof_load s; _i_nif_load := _i_nif_load s;
     _i_h_load := _i_h_load s; _i_w_load := _i_w_load s;
     _i_nof_exec := _i_nof_exec s; _i_nif_exec := _i_nif_exec s;
     _i_h_exec := _i_h_exec s; _i_w_exec := v; copy_k := copy_k s;
     copy_lambda := copy_lambda s |}.

Definition set_copy_k (v : option pi_cl_dma_copy_t) (s : sched_state) : sched_state :=
  {| db_state_x := db_state_x s; db_state_W := db_state_W s;
     db_state_y := db_state_y s; iter := iter s;
     _i_nof_load := _i_nof_load s; _i_nif_load := _i_nif_load s;
     _i_h_load := _i_h_load s; _i_w_load := _i_w_load s;
     _i_nof_exec := _i_nof_exec s; _i_nif_exec := _i_nif_exec s;
     _i_h_exec := _i_h_exec s; _i_w_exec := _i_w_exec s; copy_k := v;
     copy_lambda := copy_lambda s |}.

Definition set_copy_lambda (v : option pi_cl_dma_copy_t) (s : sched_state) : sched_state :=
  {| db_state_x := db_state_x s; db_state_W := db_state_W s;
     db_state_y := db_state_y s; iter := iter s;
     _i_nof_load := _i_nof_load s; _i_nif_load := _i_nif_load s;
     _i_h_load := _i_h_load s; _i_w_load := _i_w_load s;
     _i_nof_exec := _i_nof_exec s; _i_nif_exec := _i_nif_exec s;
     _i_h_exec := _i_h_exec s; _i_w_exec := _i_w_exec s; copy_k := copy_k s;
     copy_lambda := v |}.

(** ** Grid of the layer

    The tile loop runs [8*1*1] times: eight channel blocks, one height
    block, one width block. *)

Definition GRID_NOF : Z := 8.
Definition GRID_H : Z := 1.
Definition GRID_W : Z := 1.
Definition N_TILES : Z := GRID_NOF * GRID_H * GRID_W.

(** ** The loop body *)

(** Lines 152-163: the load coordinate moves to the next tile. *)
Definition advance_load (s : sched_state) : sched_state :=
  let s := set_i_w_load (_i_w_load s + 1) s in
  if _i_w_load s =? 1 then
    let s := set_i_w_load 0 s in
    let s := set_i_h_load (_i_h_load s + 1) s in
    if _i_h_load s =? 1 then
      let s := set_i_h_load 0 s in
      let s := set_i_nif_load (_i_nif_load s + 1) s in
      set_i_nof_load (_i_nof_load s + 1) s
    else s
  else s.

(** The test of lines 175, 213 and 311:
    [_i_nif_load!=_i_nif_exec || _i_nof_load!=_i_nof_exec]. *)
Definition reload (s : sched_state) : bool :=
  neq (_i_nif_load s) (_i_nif_exec s) || neq (_i_nof_load s) (_i_nof_exec s).

(** The seven offsets computed at lines 167-174. *)
Record db_offsets : Type := {
  db_x : Z;
  db_W : Z;
  db_y : Z;
  db_act : Z;
  exec_db_x : Z;
  exec_db_W : Z;
  exec_db_act : Z
}.

(** Lines 167-171 and 173-174.  Every read of [db_state_x] comes before its
    update at line 172, and every read of [db_state_W] before line 176, so
    the offsets are a function of the state on entry to line 167. *)
Definition db_offsets_of (s : sched_state) : db_offsets :=
  {| db_x := if truthy (lnot (db_state_x s)) then 8192 else 0;
     db_W := if truthy (lnot (db_state_W s)) then 288 else 0;
     db_y := if truthy (lnot (db_state_y s)) then 8192 else 0;
     db_act := if truthy (lnot (db_state_W s)) then 128 else 0;
     exec_db_x := if truthy (db_state_x s) then 8192 else 0;
     exec_db_W := if truthy (db_state_W s) then 288 else 0;
     exec_db_act := if truthy (db_state_W s) then 128 else 0 |}.

(** Lines 172 and 175-176: the parity updates. *)
Definition db_update (s : sched_state) : sched_state :=
  let s := set_db_state_x (lnot (db_state_x s)) s in
  if reload s then set_db_state_W (lnot (db_state_W s)) s else s.

(** Lines 182-186, 189-193 and 201-211: the call that reads the next input
    tile.  (Lines 194-195 assign [y_tile_size_h] and [y_tile_size_w], which
    lines 257-258 assign again before any use; they are left out.) *)
Definition next_x (a : layer_args) (o : db_offsets) (s : sched_state)
    : dma_3d :=
  let x_tile_size_nif := u16 (if _i_nif_load s + 1 =? 8 then 32 else 32) in
  let x_tile_size_h := u16 (if _i_h_load s + 1 =? 1 then 16 else 16) in
  let x_tile_size_w := u16 (if _i_w_load s + 1 =? 1 then 16 else 16) in
  let x_tile_size_byte :=
    u16 (Z.quot (x_tile_size_nif * x_tile_size_h * x_tile_size_w * 8) 8) in
  let x_length_nif_byte := u16 (if _i_nif_load s + 1 =? 8 then 32 else 32) in
  let pad_offset_h := if _i_h_load s >? 0 then 1 else 0 in
  let pad_offset_w := if _i_w_load s >? 0 then 1 else 0 in
  {| dma_ext :=
       ExtTile
         {| tile_base := l2_x a;
            tile_i := _i_h_load s; tile_j := _i_w_load s;
            tile_k := _i_nif_load s;
            tile_size_i := 16; tile_size_j := 16; tile_size_k := 32;
            tile_stride_j := 16; tile_stride_k := 256;
            tile_overlap_i := 2; tile_overlap_j := 2; tile_overlap_k := 0;
            tile_offset_i := pad_offset_h; tile_offset_j := pad_offset_w;
            tile_offset_k := 0;
            tile_data_size := 8 |};
     dma_loc := u32 (u32 (l1_buffer a + 0) + db_x o);
     dma_size := x_tile_size_byte;
     dma_stride_1 := 4096;
     dma_stride_0 := 256;
     dma_length_2 := x_tile_size_h;
     dma_length_0 := x_length_nif_byte;
     dma_dir := 1 |}.

(** Lines 196-199 and 215-225: the call that reads the next weight tile. *)
Definition next_W (a : layer_args) (o : db_offsets) (s : sched_state)
    : dma_3d :=
  let W_tile_size_nof := u16 (if _i_nof_load s + 1 =? 8 then 32 else 32) in
  let W_tile_size_nif := u16 (if _i_nif_load s + 1 =? 8 then 1 else 1) in
  let W_tile_size_byte := u16 (W_tile_size_nof * W_tile_size_nif * 3 * 3) in
  let W_length_nif_byte := u16 (if _i_nif_load s + 1 =? 8 then 1 else 1) in
  {| dma_ext :=
       ExtTile
         {| tile_base := l2_W a;
            tile_i := _i_nof_load s; tile_j := 0; tile_k := 0;
            tile_size_i := 32; tile_size_j := 3 * 3; tile_size_k := 1;
            tile_stride_j := 3 * 3; tile_stride_k := 1;
            tile_overlap_i := 0; tile_overlap_j := 0; tile_overlap_k := 0;
            tile_offset_i := 0; tile_offset_j := 0; tile_offset_k := 0;
            tile_data_size := 8 |};
     dma_loc := u32 (u32 (l1_buffer a + 32776) + db_W o);
     dma_size := W_tile_size_byte;
     dma_stride_1 := 9;
     dma_stride_0 := 1;
     dma_length_2 := W_tile_size_nof;
     dma_length_0 := W_length_nif_byte;
     dma_dir := 1 |}.

(** Lines 228-233: the descriptor of the next multipliers. *)
Definition next_k (a : layer_args) (o : db_offsets) (s : sched_state)
    : pi_cl_dma_copy_t :=
  let W_tile_size_nof := u16 (if _i_nof_load s + 1 =? 8 then 32 else 32) in
  {| copy_dir := PI_CL_DMA_DIR_EXT2LOC;
     copy_merge := 0;
     copy_size := u16 W_tile_size_nof * 4;
     copy_id := 0;
     copy_ext := u32 (u32 (l2_W a + 2304) + 128 * _i_nof_load s);
     copy_loc := u32 (u32 (l1_buffer a + 33356) + db_act o) |}.

(** Lines 235-240: the descriptor of the next shifts. *)
Definition next_lambda (a : layer_args) (o : db_offsets) (s : sched_state)
    : pi_cl_dma_copy_t :=
  let W_tile_size_nof := u16 (if _i_nof_load s + 1 =? 8 then 32 else 32) in
  {| copy_dir := PI_CL_DMA_DIR_EXT2LOC;
     copy_merge := 0;
     copy_size := u16 W_tile_size_nof * 4;
     copy_id := 0;
     copy_ext := u32 (u32 (l2_W a + 3328) + 128 * _i_nof_load s);
     copy_loc := u32 (u32 (l1_buffer a + 33616) + db_act o) |}.

(** Lines 179-244: read-ahead of the next input tile and, when the channel
    block changes, of the next weights and requantization parameters.  The
    two descriptors are submitted by core 0 only. *)
Definition prefetch (core : Z) (a : layer_args) (o : db_offsets)
    (s : sched_state) : sched_state * list event :=
  if iter s <? 8 * 1 * 1 - 1 then
    let copy_x := dory_dma_memcpy_3d_custom_hwc_to_chw (next_x a o s) in
    if reload s then
      let copy_W := dory_dma_memcpy_3d_custom_blocking (next_W a o s) in
      if core =? 0 then
        let ck := next_k a o s in
        let cl := next_lambda a o s in
        let s := set_copy_k (Some ck) s in
        let s := set_copy_lambda (Some cl) s in
        (s, [copy_x; copy_W;
             pi_cl_dma_memcpy Copy_k ck; pi_cl_dma_memcpy Copy_lambda cl])
      else (s, [copy_x; copy_W])
    else (s, [copy_x])
  else (s, []).

(** Lines 261-272: the four padding flags, as [(p_t, p_b, p_l, p_r)]. *)
Definition padding_flags (h_exec w_exec : Z) : Z * Z * Z * Z :=
  let p_r := 0 in
  let p_l := 0 in
  let p_t := 0 in
  let p_b := 0 in
  let p_t := if h_exec =? 0 then 1 else p_t in
  let p_l := if w_exec =? 0 then 1 else p_l in
  let p_b := if h_exec =? 1 - 1 then 1 else p_b in
  let p_r := if w_exec =? 1 - 1 then 1 else p_r in
  (p_t, p_b, p_l, p_r).

(** Lines 247-305: the pointers and sizes of the tile being executed, as
    they are passed to the kernel. *)
Definition kernel_args (a : layer_args) (o : db_offsets) (s : sched_state)
    : kernel_call :=
  let im2col := u32 (l1_buffer a + 33896) in
  let pwt_buffer := u32 (im2col + 456) in
  let out_mult := u16 (out_mult_in a) in
  let out_shift := u16 (out_shift_in a) in
  let x := u32 (u32 (l1_buffer a + 0) + exec_db_x o) in
  let k := u32 (u32 (l1_buffer a + 33356) + exec_db_act o) in
  let lambda := u32 (u32 (l1_buffer a + 33616) + exec_db_act o) in
  let W := u32 (u32 (l1_buffer a + 32776) + exec_db_W o) in
  let y := u32 (u32 (l1_buffer a + 16388) + db_y o) in
  let x_tile_size_nif_exec := if _i_nif_exec s + 1 =? 8 then 32 else 32 in
  let x_tile_size_h_exec := if _i_h_exec s + 1 =? 1 then 16 else 16 in
  let x_tile_size_w_exec := if _i_w_exec s + 1 =? 1 then 16 else 16 in
  let y_tile_size_nof := if _i_nof_exec s + 1 =? 8 then 32 else 32 in
  let y_tile_size_h := if _i_h_exec s + 1 =? 1 then 16 else 16 in
  let y_tile_size_w := if _i_w_exec s + 1 =? 1 then 16 else 16 in
  let '(p_t, p_b, p_l, p_r) := padding_flags (_i_h_exec s) (_i_w_exec s) in
  {| k_x := x;
     k_x_tile_size_w := x_tile_size_w_exec;
     k_x_tile_size_h := x_tile_size_h_exec;
     k_x_tile_size_nif := x_tile_size_nif_exec;
     k_W := W;
     k_y_tile_size_nof := y_tile_size_nof;
     k_dim_kernel_x := 3;
     k_dim_kernel_y := 3;
     k_p_t := p_t;
     k_p_b := p_b;
     k_p_l := p_l;
     k_p_r := p_r;
     k_stride_x := 1;
     k_stride_y := 1;
     k_bias := 0;
     k_bias_shift := 0;
     k_out_shift := out_shift;
     k_out_mult := out_mult;
     k_y := y;
     k_y_tile_size_w := y_tile_size_w;
     k_y_tile_size_h := y_tile_size_h;
     k_k := k;
     k_lambda := lambda;
     k_im2col := im2col;
     k_pwt_buffer := pwt_buffer;
     k_flag_relu := 1;
     k_flag_batch_norm := 1 |}.

(** Lines 274-306: barrier, kernel, barrier. *)
Definition compute (a : layer_args) (o : db_offsets) (s : sched_state)
    : list event :=
  [pi_cl_team_barrier;
   pulp_nn_depthwise_generic (kernel_args a o s);
   pi_cl_team_barrier].

(** Lines 309-316: core 0 waits for the two requantization copies. *)
Definition wait_copies (core : Z) (s : sched_state) : list event :=
  if iter s <? 8 * 1 * 1 - 1 then
    if (core =? 0) && reload s then
      [pi_cl_dma_wait Copy_k (copy_k s);
       pi_cl_dma_wait Copy_lambda (copy_lambda s)]
    else []
  else [].

(** Lines 317-327: the output tile goes back to L2. *)
Definition write_back (a : layer_args) (o : db_offsets) (s : sched_state)
    : event :=
  let y_tile_size_nof := if _i_nof_exec s + 1 =? 8 then 32 else 32 in
  let y_tile_size_h := if _i_h_exec s + 1 =? 1 then 16 else 16 in
  let y_tile_size_w := if _i_w_exec s + 1 =? 1 then 16 else 16 in
  let y_tile_size_byte :=
    Z.quot (y_tile_size_nof * y_tile_size_h * y_tile_size_w * 8) 8 in
  let y_length_nof_byte := if _i_nof_exec s + 1 =? 8 then 32 else 32 in
  dory_dma_memcpy_3d_custom_blocking
    {| dma_ext :=
         ExtTile
           {| tile_base := l2_y a;
              tile_i := _i_h_exec s; tile_j := _i_w_exec s;
              tile_k := _i_nof_exec s;
              tile_size_i := 16; tile_size_j := 16; tile_size_k := 32;
              tile_stride_j := 16; tile_stride_k := 256;
              tile_overlap_i := 0; tile_overlap_j := 0; tile_overlap_k := 0;
              tile_offset_i := 0; tile_offset_j := 0; tile_offset_k := 0;
              tile_data_size := 8 |};
       dma_loc := u32 (u32 (l1_buffer a + 16388) + db_y o);
       dma_size := y_tile_size_byte;
       dma_stride_1 := 4096;
       dma_stride_0 := 256;
       dma_length_2 := y_tile_size_h;
       dma_length_0 := y_length_nof_byte;
       dma_dir := 0 |}.

(** Lines 329-332: the exec coordinate takes the value of the load
    coordinate. *)
Definition update_exec (s : sched_state) : sched_state :=
  let s := set_i_nof_exec (_i_nof_load s) s in
  let s := set_i_nif_exec (_i_nif_load s) s in
  let s := set_i_h_exec (_i_h_load s) s in
  set_i_w_exec (_i_w_load s) s.

(** One iteration, lines 152-333. *)
Definition loop_body (core : Z) (a : layer_args) (s : sched_state)
    : sched_state * list event :=
  let s := advance_load s in
  let o := db_offsets_of s in
  let s := db_update s in
  let '(s, t_load) := prefetch core a o s in
  let t_exec := compute a o s in
  let t_wait := wait_copies core s in
  let t_out := [write_back a o s] in
  let s := update_exec s in
  (s, t_load ++ t_exec ++ t_wait ++ t_out ++ [pi_cl_team_barrier]).

(** The [for] loop of line 150.  [fuel] bounds the number of iterations the
    model is willing to run; [tile_loop_exit] shows that the loop leaves
    through its own test. *)
Fixpoint tile_loop (fuel : nat) (core : Z) (a : layer_args) (s : sched_state)
    : sched_state * list (list event) :=
  match fuel with
  | O => (s, [])
  | S fuel' =>
      if iter s <? 8 * 1 * 1 then
        let '(s1, t) := loop_body core a s in
        let '(s2, ts) :=
          tile_loop fuel' core a (set_iter (iter s1 + 1) s1) in
        (s2, t :: ts)
      else (s, [])
  end.

(** ** The prologue, lines 84-146 *)

(** Lines 84-91.  [iter] is set by the loop header. *)
Definition init_state : sched_state :=
  {| db_state_x := 0; db_state_W := 0; db_state_y := 1;
     iter := 0;
     _i_nof_load := 0; _i_nif_load := 0; _i_h_load := 0; _i_w_load := 0;
     _i_nof_exec := 0; _i_nif_exec := 0; _i_h_exec := 0; _i_w_exec := 0;
     copy_k := None; copy_lambda := None |}.

(** Lines 101-146. *)
Definition prologue (core : Z) (a : layer_args) (s : sched_state)
    : sched_state * list event :=
  let '(s, t_act) :=
    if core =? 0 then
      let ck :=
        {| copy_dir := PI_CL_DMA_DIR_EXT2LOC;
           copy_merge := 0;
           copy_size := u16 128;
           copy_id := 0;
           copy_ext := u32 (l2_W a + 2304);
           copy_loc := u32 (l1_buffer a + 33356) |} in
      let s := set_copy_k (Some ck) s in
      let cl :=
        {| copy_dir := PI_CL_DMA_DIR_EXT2LOC;
           copy_merge := 0;
           copy_size := u16 128;
           copy_id := 0;
           copy_ext := u32 (l2_W a + 3328);
           copy_loc := u32 (l1_buffer a + 33616) |} in
      let s := set_copy_lambda (Some cl) s in
      (s, [pi_cl_dma_memcpy Copy_k ck; pi_cl_dma_memcpy Copy_lambda cl;
           pi_cl_dma_wait Copy_k (copy_k s);
           pi_cl_dma_wait Copy_lambda (copy_lambda s)])
    else (s, []) in
  (s,
   t_act ++
   [pi_cl_team_barrier;
    dory_dma_memcpy_3d_custom_hwc_to_chw
      {| dma_ext := ExtAt (l2_x a);
         dma_loc := u32 (u32 (l1_buffer a + 0) + 0);
         dma_size := 8192;
         dma_stride_1 := 4096;
         dma_stride_0 := 256;
         dma_length_2 := 16;
         dma_length_0 := 32;
         dma_dir := 1 |};
    dory_dma_memcpy_3d_custom_blocking
      {| dma_ext := ExtAt (l2_W a);
         dma_loc := u32 (u32 (l1_buffer a + 32776) + 0);
         dma_size := 288;
         dma_stride_1 := 9;
         dma_stride_0 := 1;
         dma_length_2 := 32;
         dma_length_0 := 1;
         dma_dir := 1 |};
    pi_cl_team_barrier]).

(** ** The layer *)

(** The run of one core: the calls of the prologue, then the calls of each
    iteration. *)
Definition layer_run (core : Z) (a : layer_args)
    : sched_state * list event * list (list event) :=
  let '(s, t0) := prologue core a init_state in
  let '(s, ts) := tile_loop (Z.to_nat (8 * 1 * 1)) core a (set_iter 0 s) in
  (s, t0, ts).

Definition prologue_trace (core : Z) (a : layer_args) : list event :=
  snd (fst (layer_run core a)).

Definition loop_traces (core : Z) (a : layer_args) : list (list event) :=
  snd (layer_run core a).

Definition final_state (core : Z) (a : layer_args) : sched_state :=
  fst (fst (layer_run core a)).

(** Everything [layerConvDWBNRelu9] asks of its environment, in order. *)
Definition layerConvDWBNRelu9 (core : Z) (a : layer_args) : list event :=
  prologue_trace core a ++ concat (loop_traces core a).

(** ** Observing a run *)

(** State on entry to the next iteration: the body, then [iter++]. *)
Definition next_state (core : Z) (a : layer_args) (s : sched_state)
    : sched_state :=
  let s1 := fst (loop_body core a s) in
  set_iter (iter s1 + 1) s1.

(** State on entry to iteration [n] (counted from 0). *)
Fixpoint entry_state (core : Z) (a : layer_args) (n : nat) : sched_state :=
  match n with
  | O => set_iter 0 (fst (prologue core a init_state))
  | S m => next_state core a (entry_state core a m)
  end.

(** Calls made by iteration [n]. *)
Definition iter_events (core : Z) (a : layer_args) (n : nat) : list event :=
  snd (loop_body core a (entry_state core a n)).

(** State of iteration [n] once the load coordinate has advanced: the one
    in which lines 167-327 read the tile indices. *)
Definition iter_state (core : Z) (a : layer_args) (n : nat) : sched_state :=
  advance_load (entry_state core a n).

(** Offsets computed by iteration [n]. *)
Definition iter_offsets (core : Z) (a : layer_args) (n : nat) : db_offsets :=
  db_offsets_of (iter_state core a n).

(** The states between the steps of one iteration: on entry, after the
    advance of the load coordinate, after the parity updates, after the
    read-ahead, after the copy of the load coordinate into the exec
    coordinate, and after [iter++]. *)
Definition body_points (core : Z) (a : layer_args) (s : sched_state)
    : list sched_state :=
  let s1 := advance_load s in
  let s2 := db_update s1 in
  let s3 := fst (prefetch core a (db_offsets_of s1) s2) in
  let s4 := update_exec s3 in
  [s; s1; s2; s3; s4; set_iter (iter s4 + 1) s4].

(** All of them, for the whole run, after the two states of the
    prologue. *)
Definition program_points (core : Z) (a : layer_args) : list sched_state :=
  init_state :: fst (prologue core a init_state) ::
  concat (map (fun n => body_points core a (entry_state core a n))
              (seq 0 (Z.to_nat N_TILES))).

(** Selecting calls in a trace. *)

Definition input_prefetches (t : list event) : list dma_3d :=
  flat_map (fun e => match e with
                     | dory_dma_memcpy_3d_custom_hwc_to_chw d => [d]
                     | _ => []
                     end) t.

(** Blocking 3D copies towards the scratchpad ([dir = 1]): the weights. *)
Definition weight_transfers (t : list event) : list dma_3d :=
  flat_map (fun e => match e with
                     | dory_dma_memcpy_3d_custom_blocking d =>
                         if dma_dir d =? 1 then [d] else []
                     | _ => []
                     end) t.

(** Blocking 3D copies out of the scratchpad ([dir = 0]): the outputs. *)
Definition write_backs (t : list event) : list dma_3d :=
  flat_map (fun e => match e with
                     | dory_dma_memcpy_3d_custom_blocking d =>
                         if dma_dir d =? 0 then [d] else []
                     | _ => []
                     end) t.

Definition copy_var_eqb (u v : copy_var) : bool :=
  match u, v with
  | Copy_k, Copy_k | Copy_lambda, Copy_lambda => true
  | _, _ => false
  end.

(** Descriptors submitted with [pi_cl_dma_memcpy(&v)]. *)
Definition act_copies (v : copy_var) (t : list event)
    : list pi_cl_dma_copy_t :=
  flat_map (fun e => match e with
                     | pi_cl_dma_memcpy u c =>
                         if copy_var_eqb u v then [c] else []
                     | _ => []
                     end) t.

Definition kernel_calls (t : list event) : list kernel_call :=
  flat_map (fun e => match e with
                     | pulp_nn_depthwise_generic k => [k]
                     | _ => []
                     end) t.

(** Coordinates [(k, i, j)] of a tile address: channel block, height block,
    width block in the calls for the input and output tensors. *)
Definition tile_coord (e : ext_addr) : option (Z * Z * Z) :=
  match e with
  | ExtAt _ => None
  | ExtTile t => Some (tile_k t, tile_i t, tile_j t)
  end.

(** Load and exec coordinates of a state, as (channel block, height block,
    width block). *)
Definition load_coord (s : sched_state) : Z * Z * Z :=
  (_i_nof_load s, _i_h_load s, _i_w_load s).

Definition exec_coord (s : sched_state) : Z * Z * Z :=
  (_i_nof_exec s, _i_h_exec s, _i_w_exec s).

(** Rank of a coordinate in the enumeration order of the grid: channel
    block outermost, width block innermost. *)
Definition rank (c : Z * Z * Z) : Z :=
  let '(nof, h, w) := c in (nof * GRID_H + h) * GRID_W + w.

(** Position of the first call of a trace that satisfies [p]. *)
Fixpoint index_of (p : event -> bool) (t : list event) : option nat :=
  match t with
  | [] => None
  | e :: t' => if p e then Some O else option_map S (index_of p t')
  end.

Definition is_kernel (e : event) : bool :=
  match e with pulp_nn_depthwise_generic _ => true | _ => false end.

Definition is_wait (v : copy_var) (e : event) : bool :=
  match e with pi_cl_dma_wait u _ => copy_var_eqb u v | _ => false end.

Definition is_act_copy (v : copy_var) (e : event) : bool :=
  match e with pi_cl_dma_memcpy u _ => copy_var_eqb u v | _ => false end.

(** ** Scratchpad layout

    The regions of [l1_buffer] by role, as byte offsets: two slots of 8192
    bytes for the input and for the output, two of 288 for the weights, two
    of 128 for the multipliers and for the shifts, 456 bytes of im2col
    workspace, and the pwt workspace from there on (its size is not fixed
    by this file). *)

Inductive role : Type :=
| Input
| Output
| Weight
| Mult
| Shift
| Im2col
| Pwt.

Definition region_lo (r : role) : Z :=
  match r with
  | Input => 0
  | Output => 16388
  | Weight => 32776
  | Mult => 33356
  | Shift => 33616
  | Im2col => 33896
  | Pwt => 34352
  end.

(** [None]: no upper end is known. *)
Definition region_hi (r : role) : option Z :=
  match r with
  | Input => Some 16384
  | Output => Some (16388 + 2 * 8192)
  | Weight => Some 33352
  | Mult => Some 33612
  | Shift => Some 33872
  | Im2col => Some 34352
  | Pwt => None
  end.

(** [r1] ends before [r2] starts. *)
Definition ends_before (r1 r2 : role) : Prop :=
  match region_hi r1 with
  | Some hi => hi <= region_lo r2
  | None => False
  end.

Definition disjoint_regions (r1 r2 : role) : Prop :=
  ends_before r1 r2 \/ ends_before r2 r1.

(** Offset of a local address inside the scratchpad. *)
Definition local_off (a : layer_args) (addr : Z) : Z :=
  u32 (addr - l1_buffer a).

(** The bytes [off, off + size) lie in the region of [r]. *)
Definition range_in_region (x : role * Z * Z) : Prop :=
  let '(r, off, size) := x in
  region_lo r <= off /\ 0 < size /\
  match region_hi r with
  | Some hi => off + size <= hi
  | None => True
  end.

(** The byte at [off] lies in the region of [r]. *)
Definition pointer_in_region (x : role * Z) : Prop :=
  let '(r, off) := x in
  region_lo r <= off /\
  match region_hi r with
  | Some hi => off < hi
  | None => True
  end.

(** Local side of a DMA call: role of the buffer, offset and size. *)
Definition dma_local_ranges (a : layer_args) (e : event)
    : list (role * Z * Z) :=
  match e with
  | dory_dma_memcpy_3d_custom_hwc_to_chw d =>
      [(Input, local_off a (dma_loc d), dma_size d)]
  | dory_dma_memcpy_3d_custom_blocking d =>
      [(if dma_dir d =? 1 then Weight else Output,
        local_off a (dma_loc d), dma_size d)]
  | pi_cl_dma_memcpy v c =>
      [(match v with Copy_k => Mult | Copy_lambda => Shift end,
        local_off a (copy_loc c), copy_size c)]
  | _ => []
  end.

(** Buffers handed to the kernel: role and offset. *)
Definition kernel_pointers (a : layer_args) (e : event) : list (role * Z) :=
  match e with
  | pulp_nn_depthwise_generic k =>
      [(Input, local_off a (k_x k));
       (Weight, local_off a (k_W k));
       (Output, local_off a (k_y k));
       (Mult, local_off a (k_k k));
       (Shift, local_off a (k_lambda k));
       (Im2col, local_off a (k_im2col k));
       (Pwt, local_off a (k_pwt_buffer k))]
  | _ => []
  end.

(** A call stays inside the regions of the roles it touches. *)
Definition respects_layout (a : layer_args) (e : event) : Prop :=
  Forall range_in_region (dma_local_ranges a e) /\
  Forall pointer_in_region (kernel_pointers a e).

(** Invariant of the tile loop: on entry to iteration [i] both coordinates
    are at tile [i] and the parities of the input and weight roles are the
    parity of [i]. *)
Definition at_tile (i : Z) (s : sched_state) : Prop :=
  iter s = i /\
  (_i_nof_load s = i /\ _i_nif_load s = i /\
   _i_h_load s = 0 /\ _i_w_load s = 0) /\
  (_i_nof_exec s = i /\ _i_nif_exec s = i /\
   _i_h_exec s = 0 /\ _i_w_exec s = 0) /\
  db_state_x s = i mod 2 /\ db_state_W s = i mod 2 /\ db_state_y s = 1.

(** The loop counter and the eight tile indices of a state. *)
Definition indices (s : sched_state) : list Z :=
  [iter s; _i_nof_load s; _i_nif_load s; _i_h_load s; _i_w_load s;
   _i_nof_exec s; _i_nif_exec s; _i_h_exec s; _i_w_exec s].

(** The two channel-block indices of each coordinate agree. *)
Definition chan_inv (s : sched_state) : Prop :=
  _i_nif_load s = _i_nof_load s /\ _i_nif_exec s = _i_nof_exec s.

(** The step of a three-digit odometer over the grid, as the specification
    words it: the width index moves first, wraps at the size of its grid and
    carries into the height index, which wraps and carries into the
    channel-block index.  It is compared with [advance_load] below. *)
Definition odometer_step (c : Z * Z * Z) : Z * Z * Z :=
  let '(nof, h, w) := c in
  if w + 1 <? GRID_W then (nof, h, w + 1)
  else if h + 1 <? GRID_H then (nof, h + 1, 0)
  else (nof + 1, 0, 0).

(** Channel block of a weight transfer: block 0 when the transfer starts at
    the base of the weight tensor, and the first tile index of
    [dory_get_tile_3d(l2_W, _i_nof_load, 0, 0, ...)] otherwise. *)
Definition weight_block (a : layer_args) (e : ext_addr) : option Z :=
  match e with
  | ExtAt x => if x =? l2_W a then Some 0 else None
  | ExtTile t => if tile_base t =? l2_W a then Some (tile_i t) else None
  end.

(** A parameter block used for concrete runs. *)
Definition sample_args : layer_args :=
  {| l3_x := 0; l3_y := 0; l3_W := 0;
     l2_x := 469827584; l2_x_2 := 469827584; l2_y := 469893120;
     l2_W := 469762048; l1_buffer := 268435456; hyperram := 0;
     out_mult_in := 1; inmul1 := 1; inmul2 := 1; out_shift_in := 13 |}.

(** ** Further observations of a run *)

(** Calls on the two DMA descriptors of the function: submissions and
    waits. *)
Definition is_descr_op (e : event) : bool :=
  match e with
  | pi_cl_dma_memcpy _ _ | pi_cl_dma_wait _ _ => true
  | _ => false
  end.

Definition descr_ops (t : list event) : list event := filter is_descr_op t.

(** The calls that do not depend on which core runs: everything but the
    descriptor calls. *)
Definition shared_calls (t : list event) : list event :=
  filter (fun e => negb (is_descr_op e)) t.

Definition is_barrier (e : event) : bool :=
  match e with pi_cl_team_barrier => true | _ => false end.

(** One round trip of the two descriptors: both are submitted, then both
    are waited for, with the contents they were submitted with. *)
Definition descr_round (c : pi_cl_dma_copy_t * pi_cl_dma_copy_t)
    : list event :=
  [pi_cl_dma_memcpy Copy_k (fst c);
   pi_cl_dma_memcpy Copy_lambda (snd c);
   pi_cl_dma_wait Copy_k (Some (fst c));
   pi_cl_dma_wait Copy_lambda (Some (snd c))].

(** Two parameter blocks agree on what the function reads: [real_arg[3]],
    [real_arg[5]], [real_arg[6]], [real_arg[7]] and the low sixteen bits of
    [real_arg[9]] and [real_arg[12]]. *)
Definition used_args_agree (a a' : layer_args) : Prop :=
  l2_x a = l2_x a' /\ l2_y a = l2_y a' /\ l2_W a = l2_W a' /\
  l1_buffer a = l1_buffer a' /\
  u16 (out_mult_in a) = u16 (out_mult_in a') /\
  u16 (out_shift_in a) = u16 (out_shift_in a').

(** Local side of a 3D transfer, as (offset in the scratchpad, size). *)
Definition dma_local (a : layer_args) (d : dma_3d) : Z * Z :=
  (local_off a (dma_loc d), dma_size d).

(** Both sides of a descriptor, as (offset from [l2_W], offset in the
    scratchpad, size). *)
Definition copy_range (a : layer_args) (c : pi_cl_dma_copy_t) : Z * Z * Z :=
  (u32 (copy_ext c - l2_W a), local_off a (copy_loc c), copy_size c).

(** The tile indices of a transfer address are inside the grid.  The
    channel block is the third index for the input and output tensors and
    the first one for the weights. *)
Definition tile_in_grid (e : event) : Prop :=
  match e with
  | dory_dma_memcpy_3d_custom_hwc_to_chw d =>
      match dma_ext d with
      | ExtAt _ => True
      | ExtTile t =>
          0 <= tile_k t < GRID_NOF /\ 0 <= tile_i t < GRID_H /\
          0 <= tile_j t < GRID_W
      end
  | dory_dma_memcpy_3d_custom_blocking d =>
      match dma_ext d with
      | ExtAt _ => True
      | ExtTile t =>
          if dma_dir d =? 1
          then 0 <= tile_i t < GRID_NOF /\ tile_j t = 0 /\ tile_k t = 0
          else 0 <= tile_k t < GRID_NOF /\ 0 <= tile_i t < GRID_H /\
               0 <= tile_j t < GRID_W
      end
  | _ => True
  end.

(** * Properties *)

(** ** Concrete runs *)

(** Core 0 makes 8 calls in the prologue, 11 in each of the first seven
    iterations and 5 in the last one; another core makes 4, 7 and 5. *)
Example calls_of_core_0 :
  length (prologue_trace 0 sample_args) = 8%nat /\
  map (@length event) (loop_traces 0 sample_args) =
    [11; 11; 11; 11; 11; 11; 11; 5]%nat.
Proof. vm_compute. split; reflexivity. Qed.

Example calls_of_core_3 :
  length (prologue_trace 3 sample_args) = 4%nat /\
  map (@length event) (loop_traces 3 sample_args) =
    [7; 7; 7; 7; 7; 7; 7; 5]%nat.
Proof. vm_compute. split; reflexivity. Qed.

Example final_state_of_core_0 :
  indices (final_state 0 sample_args) = [8; 8; 8; 0; 0; 8; 8; 0; 0] /\
  db_state_x (final_state 0 sample_args) = 0 /\
  db_state_W (final_state 0 sample_args) = 0 /\
  db_state_y (final_state 0 sample_args) = 1.
Proof. vm_compute. repeat split. Qed.

Example offsets_of_first_iterations :
  map (fun n => (db_x (iter_offsets 0 sample_args n),
                 exec_db_x (iter_offsets 0 sample_args n),
                 db_y (iter_offsets 0 sample_args n)))
      [0; 1; 2]%nat =
  [(8192, 0, 0); (0, 8192, 0); (8192, 0, 0)].
Proof. vm_compute. reflexivity. Qed.

(** ** Arithmetic helpers *)

Lemma lnot_parity (i : Z) : lnot (i mod 2) = (i + 1) mod 2.
Proof.
  unfold lnot.
  assert (H : i mod 2 = 0 \/ i mod 2 = 1) by (pose proof (Z.mod_pos_bound i 2); lia).
  rewrite Z.add_mod by lia.
  destruct H as [-> | ->]; reflexivity.
Qed.

Lemma truthy_parity (i : Z) : truthy (i mod 2) = Z.odd i.
Proof.
  unfold truthy. rewrite Zmod_odd. destruct (Z.odd i); reflexivity.
Qed.

Lemma u32_local (base off : Z) (c : Z) :
  0 <= off + c < 2 ^ 32 ->
  u32 (u32 (u32 (base + c) + off) - base) = c + off.
Proof.
  intros H. unfold u32.
  rewrite Zminus_mod_idemp_l.
  replace ((base + c) mod 2 ^ 32 + off - base)
    with ((base + c) mod 2 ^ 32 + (off - base)) by ring.
  rewrite Zplus_mod_idemp_l.
  replace (base + c + (off - base)) with (c + off) by ring.
  apply Z.mod_small; lia.
Qed.

Lemma neq_succ (i : Z) : neq (i + 1) i = true.
Proof. unfold neq. destruct (Z.eqb_spec (i + 1) i); [lia | reflexivity]. Qed.

Arguments u32 : simpl never.
Arguments u16 : simpl never.

(** ** Structure of one iteration *)

Lemma loop_body_fst (core : Z) (a : layer_args) (s : sched_state) :
  fst (loop_body core a s) =
  update_exec
    (fst (prefetch core a (db_offsets_of (advance_load s))
            (db_update (advance_load s)))).
Proof. unfold loop_body. destruct (prefetch _ _ _ _); reflexivity. Qed.

Lemma loop_body_snd (core : Z) (a : layer_args) (s : sched_state) :
  let s1 := advance_load s in
  let o := db_offsets_of s1 in
  let s2 := db_update s1 in
  let s3 := fst (prefetch core a o s2) in
  snd (loop_body core a s) =
  snd (prefetch core a o s2) ++ compute a o s3 ++ wait_copies core s3 ++
  [write_back a o s3] ++ [pi_cl_team_barrier].
Proof. unfold loop_body. destruct (prefetch _ _ _ _); reflexivity. Qed.

(** The read-ahead only writes the two DMA descriptors. *)
Lemma prefetch_frame (core : Z) (a : layer_args) (o : db_offsets)
    (s : sched_state) :
  let s' := fst (prefetch core a o s) in
  (db_state_x s' = db_state_x s /\ db_state_W s' = db_state_W s /\
   db_state_y s' = db_state_y s /\ iter s' = iter s) /\
  (_i_nof_load s' = _i_nof_load s /\ _i_nif_load s' = _i_nif_load s /\
   _i_h_load s' = _i_h_load s /\ _i_w_load s' = _i_w_load s) /\
  (_i_nof_exec s' = _i_nof_exec s /\ _i_nif_exec s' = _i_nif_exec s /\
   _i_h_exec s' = _i_h_exec s /\ _i_w_exec s' = _i_w_exec s).
Proof.
  unfold prefetch.
  destruct (iter s <? _), (reload s), (core =? 0); cbn; repeat split.
Qed.

(** The advance from tile [i]: both inner indices wrap and the two
    channel-block indices move to [i + 1]. *)
Lemma advance_at_tile_eq (i : Z) (s : sched_state) :
  at_tile i s ->
  advance_load s = set_i_nof_load (i + 1) (set_i_nif_load (i + 1) s).
Proof.
  intros (Hi & (L1 & L2 & L3 & L4) & _).
  unfold advance_load. destruct s; cbn in *. subst. reflexivity.
Qed.

(** State of iteration [i] after the advance and the parity updates. *)
Lemma advance_at_tile (i : Z) (s : sched_state) :
  at_tile i s ->
  let s1 := advance_load s in
  load_coord s1 = (i + 1, 0, 0) /\ _i_nif_load s1 = i + 1 /\
  exec_coord s1 = (i, 0, 0) /\ _i_nif_exec s1 = i /\
  iter s1 = i /\ reload s1 = true /\
  db_state_x s1 = i mod 2 /\ db_state_W s1 = i mod 2 /\ db_state_y s1 = 1.
Proof.
  intros H. cbn zeta. rewrite (advance_at_tile_eq H).
  destruct H as (Hi & (L1 & L2 & L3 & L4) & (E1 & E2 & E3 & E4) & X & W & Y).
  unfold reload, load_coord, exec_coord. cbn.
  rewrite ?L3, ?L4, ?E1, ?E2, ?E3, ?E4, ?neq_succ.
  repeat split; assumption.
Qed.

Lemma next_state_at_tile (core : Z) (a : layer_args) (i : Z) (s : sched_state) :
  at_tile i s -> at_tile (i + 1) (next_state core a s).
Proof.
  intros H. unfold next_state. rewrite loop_body_fst.
  pose proof (advance_at_tile H) as A. cbn zeta in A.
  set (s1 := advance_load s) in *.
  destruct A as (Hl & Hnif & He & Hnife & Hit & Hr & Hx & HW & Hy).
  injection Hl as Hl1 Hl2 Hl3. injection He as He1 He2 He3.
  pose proof (prefetch_frame core a (db_offsets_of s1) (db_update s1)) as F.
  cbn zeta in F.
  set (s3 := fst (prefetch core a (db_offsets_of s1) (db_update s1))) in *.
  destruct F as ((F1 & F2 & F3 & F4) & (F5 & F6 & F7 & F8) & (F9 & F10 & F11 & F12)).
  unfold db_update in *. rewrite ?Hr in *.
  unfold reload in *. cbn in F1, F2, F3, F4, F5, F6, F7, F8, F9, F10, F11, F12.
  cbn in Hr. rewrite Hr in *. cbn in F1, F2, F3, F4, F5, F6, F7, F8, F9, F10, F11, F12.
  unfold at_tile; cbn.
  rewrite F1, F2, F3, F4, F5, F6, F7, F8, Hx, HW, !lnot_parity.
  repeat split; congruence.
Qed.

(** ** The loop invariant and the shape of the run *)

Lemma entry_state_at_tile (core : Z) (a : layer_args) (n : nat) :
  at_tile (Z.of_nat n) (entry_state core a n).
Proof.
  induction n as [|n IH].
  - unfold entry_state, prologue. destruct (core =? 0); cbn; repeat split.
  - rewrite Nat2Z.inj_succ. unfold Z.succ. cbn [entry_state].
    apply next_state_at_tile, IH.
Qed.

(** The loop runs its eight iterations and leaves through its test: more
    fuel changes nothing. *)
Lemma tile_loop_fuel (core : Z) (a : layer_args) (extra fuel n : nat) :
  (n + fuel = 8)%nat ->
  tile_loop (fuel + extra) core a (entry_state core a n) =
  (entry_state core a 8, map (iter_events core a) (seq n fuel)).
Proof.
  revert n. induction fuel as [|fuel IH]; intros n Hn.
  - assert (n = 8%nat) as -> by lia.
    destruct (entry_state_at_tile core a 8) as (Hit & _).
    destruct extra; cbn [Nat.add tile_loop seq map]; [reflexivity|].
    rewrite Hit. reflexivity.
  - destruct (entry_state_at_tile core a n) as (Hit & _).
    cbn [Nat.add tile_loop seq map]. rewrite Hit.
    assert ((Z.of_nat n <? 8 * 1 * 1) = true) as -> by (apply Z.ltb_lt; lia).
    specialize (IH (S n) ltac:(lia)).
    change (entry_state core a (S n))
      with (next_state core a (entry_state core a n)) in IH.
    unfold next_state in IH. unfold iter_events at 1.
    destruct (loop_body core a (entry_state core a n)) as (s1, t).
    cbn [fst snd] in *. rewrite IH. reflexivity.
Qed.

Lemma layer_run_eq (core : Z) (a : layer_args) :
  layer_run core a =
  (entry_state core a 8, snd (prologue core a init_state),
   map (iter_events core a) (seq 0 8)).
Proof.
  unfold layer_run.
  pose proof (tile_loop_fuel core a 0 8 0 eq_refl) as H.
  change (entry_state core a 0)
    with (set_iter 0 (fst (prologue core a init_state))) in H.
  change (8 + 0)%nat with 8%nat in H.
  destruct (prologue core a init_state) as (s, t0). cbn [fst snd] in *.
  change (Z.to_nat (8 * 1 * 1)) with 8%nat. rewrite H. reflexivity.
Qed.

Lemma loop_traces_eq (core : Z) (a : layer_args) :
  loop_traces core a = map (iter_events core a) (seq 0 8).
Proof. unfold loop_traces. rewrite layer_run_eq. reflexivity. Qed.

Lemma tile_loop_exit (core : Z) (a : layer_args) (extra : nat) :
  let s0 := set_iter 0 (fst (prologue core a init_state)) in
  tile_loop (8 + extra) core a s0 = tile_loop 8 core a s0 /\
  iter (fst (tile_loop 8 core a s0)) = 8.
Proof.
  cbn zeta.
  pose proof (tile_loop_fuel core a extra 8 0 eq_refl) as H1.
  pose proof (tile_loop_fuel core a 0 8 0 eq_refl) as H2.
  change (entry_state core a 0)
    with (set_iter 0 (fst (prologue core a init_state))) in H1, H2.
  change (8 + 0)%nat with 8%nat in H2.
  rewrite H1, H2. split; [reflexivity|].
  apply (entry_state_at_tile core a 8).
Qed.

(** ** The C integers of the run are small *)

Lemma indices_at_tile (i : Z) (s : sched_state) :
  at_tile i s -> indices s = [i; i; i; 0; 0; i; i; 0; 0].
Proof.
  intros (Hi & (L1 & L2 & L3 & L4) & (E1 & E2 & E3 & E4) & _).
  unfold indices. congruence.
Qed.

Lemma indices_advance (i : Z) (s : sched_state) :
  at_tile i s ->
  indices (advance_load s) = [i; i + 1; i + 1; 0; 0; i; i; 0; 0].
Proof.
  intros H. rewrite (advance_at_tile_eq H).
  destruct H as (Hi & (L1 & L2 & L3 & L4) & (E1 & E2 & E3 & E4) & _).
  unfold indices. cbn. congruence.
Qed.

Lemma indices_db_update (s : sched_state) :
  indices (db_update s) = indices s.
Proof. unfold db_update. cbn zeta. destruct (reload _); reflexivity. Qed.

Lemma indices_prefetch (core : Z) (a : layer_args) (o : db_offsets)
    (s : sched_state) :
  indices (fst (prefetch core a o s)) = indices s.
Proof.
  destruct (prefetch_frame core a o s)
    as ((_ & _ & _ & F0) & (F1 & F2 & F3 & F4) & (F5 & F6 & F7 & F8)).
  unfold indices. congruence.
Qed.

Lemma indices_update_exec (s : sched_state) :
  indices (update_exec s) =
  [iter s; _i_nof_load s; _i_nif_load s; _i_h_load s; _i_w_load s;
   _i_nof_load s; _i_nif_load s; _i_h_load s; _i_w_load s].
Proof. reflexivity. Qed.

Lemma iter_update_exec (s : sched_state) : iter (update_exec s) = iter s.
Proof. reflexivity. Qed.

Lemma indices_set_iter (v : Z) (s : sched_state) :
  indices (set_iter v s) = v :: tl (indices s).
Proof. reflexivity. Qed.

(** Every [int] of the scheduler stays between 0 and 8 at every point of
    the run: the arithmetic of the model never leaves the range of the C
    type. *)
Lemma run_indices_small (core : Z) (a : layer_args) :
  Forall (fun s => Forall (fun z => 0 <= z <= 8) (indices s))
         (program_points core a).
Proof.
  unfold program_points. constructor; [repeat constructor; cbn; lia|].
  constructor.
  - unfold prologue. destruct (core =? 0); repeat constructor; cbn; lia.
  - apply Forall_concat, Forall_map, Forall_forall. intros n Hn.
    apply in_seq in Hn. change (Z.to_nat N_TILES) with 8%nat in Hn.
    pose proof (entry_state_at_tile core a n) as H.
    unfold body_points. cbn zeta.
    set (s := entry_state core a n) in *.
    set (o := db_offsets_of (advance_load s)).
    assert (I0 : indices s = [Z.of_nat n; Z.of_nat n; Z.of_nat n; 0; 0;
                              Z.of_nat n; Z.of_nat n; 0; 0])
      by exact (indices_at_tile H).
    assert (I1 : indices (advance_load s) =
                 [Z.of_nat n; Z.of_nat n + 1; Z.of_nat n + 1; 0; 0;
                  Z.of_nat n; Z.of_nat n; 0; 0])
      by exact (indices_advance H).
    assert (I2 : indices (db_update (advance_load s)) =
                 indices (advance_load s))
      by apply indices_db_update.
    assert (I3 : indices (fst (prefetch core a o (db_update (advance_load s))))
                 = indices (db_update (advance_load s)))
      by apply indices_prefetch.
    rewrite I2, I1 in I3. rewrite I1 in I2.
    set (s3 := fst (prefetch core a o (db_update (advance_load s)))) in *.
    assert (I4 : indices (update_exec s3) =
                 [Z.of_nat n; Z.of_nat n + 1; Z.of_nat n + 1; 0; 0;
                  Z.of_nat n + 1; Z.of_nat n + 1; 0; 0]).
    { rewrite indices_update_exec. unfold indices in I3.
      injection I3 as E0 E1 E2 E3 E4 _ _ _ _.
      rewrite E0, E1, E2, E3, E4. reflexivity. }
    assert (I5 : indices (set_iter (iter (update_exec s3) + 1)
                            (update_exec s3)) =
                 [Z.of_nat n + 1; Z.of_nat n + 1; Z.of_nat n + 1; 0; 0;
                  Z.of_nat n + 1; Z.of_nat n + 1; 0; 0]).
    { rewrite indices_set_iter, I4. cbn [tl]. f_equal.
      rewrite iter_update_exec. unfold indices in I3.
      injection I3 as E0 _. rewrite E0. reflexivity. }
    repeat (constructor;
            [first [rewrite I0 | rewrite I1 | rewrite I2 | rewrite I3
                   | rewrite I4 | rewrite I5];
             repeat (constructor; [lia|]); constructor|]).
    constructor.
Qed.

(** The calls of an iteration that starts at tile [i]. *)
Lemma body_events (core : Z) (a : layer_args) (i : Z) (s : sched_state) :
  at_tile i s ->
  let s1 := advance_load s in
  let o := db_offsets_of s1 in
  snd (loop_body core a s) =
  (if i <? 7 then
     dory_dma_memcpy_3d_custom_hwc_to_chw (next_x a o s1) ::
     dory_dma_memcpy_3d_custom_blocking (next_W a o s1) ::
     (if core =? 0 then
        [pi_cl_dma_memcpy Copy_k (next_k a o s1);
         pi_cl_dma_memcpy Copy_lambda (next_lambda a o s1)]
      else [])
   else []) ++
  [pi_cl_team_barrier;
   pulp_nn_depthwise_generic (kernel_args a o s1);
   pi_cl_team_barrier] ++
  (if (i <? 7) && (core =? 0) then
     [pi_cl_dma_wait Copy_k (Some (next_k a o s1));
      pi_cl_dma_wait Copy_lambda (Some (next_lambda a o s1))]
   else []) ++
  [write_back a o s1; pi_cl_team_barrier].
Proof.
  intros H. rewrite loop_body_snd.
  destruct (advance_at_tile H) as (_ & _ & _ & _ & Hit & Hr & _).
  cbn zeta in *. set (s1 := advance_load s) in *.
  set (o := db_offsets_of s1).
  assert (E2 : db_update s1 =
               set_db_state_W (lnot (db_state_W s1))
                 (set_db_state_x (lnot (db_state_x s1)) s1)).
  { unfold db_update. cbn zeta.
    change (reload (set_db_state_x (lnot (db_state_x s1)) s1))
      with (reload s1).
    rewrite Hr. reflexivity. }
  rewrite E2. set (s2 := set_db_state_W _ _).
  change (next_x a o s2) with (next_x a o s1).
  unfold prefetch, wait_copies.
  change (iter s2) with (iter s1). change (reload s2) with (reload s1).
  change (next_x a o s2) with (next_x a o s1).
  change (next_W a o s2) with (next_W a o s1).
  change (next_k a o s2) with (next_k a o s1).
  change (next_lambda a o s2) with (next_lambda a o s1).
  rewrite Hit, Hr. change (8 * 1 * 1 - 1) with 7.
  destruct (i <? 7) eqn:E7, (core =? 0) eqn:Ec; cbn [fst snd app andb];
    cbn [iter set_copy_lambda set_copy_k copy_k copy_lambda];
    change (iter s2) with (iter s1);
    try change (reload (set_copy_lambda _ _)) with (reload s1);
    rewrite ?Hit, ?E7, ?Hr; reflexivity.
Qed.

(** The calls of iteration [n] of the run. *)
Lemma iter_events_eq (core : Z) (a : layer_args) (n : nat) :
  let i := Z.of_nat n in
  let s1 := iter_state core a n in
  let o := iter_offsets core a n in
  iter_events core a n =
  (if i <? 7 then
     dory_dma_memcpy_3d_custom_hwc_to_chw (next_x a o s1) ::
     dory_dma_memcpy_3d_custom_blocking (next_W a o s1) ::
     (if core =? 0 then
        [pi_cl_dma_memcpy Copy_k (next_k a o s1);
         pi_cl_dma_memcpy Copy_lambda (next_lambda a o s1)]
      else [])
   else []) ++
  [pi_cl_team_barrier;
   pulp_nn_depthwise_generic (kernel_args a o s1);
   pi_cl_team_barrier] ++
  (if (i <? 7) && (core =? 0) then
     [pi_cl_dma_wait Copy_k (Some (next_k a o s1));
      pi_cl_dma_wait Copy_lambda (Some (next_lambda a o s1))]
   else []) ++
  [write_back a o s1; pi_cl_team_barrier].
Proof. exact (body_events core a (entry_state_at_tile core a n)). Qed.

(** The tile indices that iteration [n] works with. *)
Lemma iter_state_coords (core : Z) (a : layer_args) (n : nat) :
  let i := Z.of_nat n in
  let s1 := iter_state core a n in
  load_coord s1 = (i + 1, 0, 0) /\ _i_nif_load s1 = i + 1 /\
  exec_coord s1 = (i, 0, 0) /\ _i_nif_exec s1 = i /\
  iter s1 = i /\ reload s1 = true.
Proof.
  destruct (advance_at_tile (entry_state_at_tile core a n))
    as (H1 & H2 & H3 & H4 & H5 & H6 & _).
  repeat split; assumption.
Qed.

(** The offsets that iteration [n] works with: the even iterations load
    into the second slot and execute from the first one, the odd ones the
    other way round; the output offset does not move. *)
Lemma iter_offsets_eq (core : Z) (a : layer_args) (n : nat) :
  let i := Z.of_nat n in
  iter_offsets core a n =
  {| db_x := if Z.even i then 8192 else 0;
     db_W := if Z.even i then 288 else 0;
     db_y := 0;
     db_act := if Z.even i then 128 else 0;
     exec_db_x := if Z.even i then 0 else 8192;
     exec_db_W := if Z.even i then 0 else 288;
     exec_db_act := if Z.even i then 0 else 128 |}.
Proof.
  destruct (advance_at_tile (entry_state_at_tile core a n))
    as (_ & _ & _ & _ & _ & _ & Hx & HW & Hy).
  cbn zeta in *. unfold iter_offsets, db_offsets_of.
  fold (iter_state core a n) in Hx, HW, Hy. rewrite Hx, HW, Hy.
  rewrite lnot_parity, !truthy_parity.
  change (Z.of_nat n + 1) with (Z.succ (Z.of_nat n)). rewrite Z.odd_succ.
  rewrite <- Z.negb_even.
  destruct (Z.even (Z.of_nat n)); reflexivity.
Qed.

Ltac iteration_cases core n :=
  rewrite (iter_events_eq core _ n); cbn zeta;
  destruct (Z.of_nat n <? 7) eqn:?, (core =? 0) eqn:?;
  cbn [app andb flat_map map length input_prefetches weight_transfers
       write_backs act_copies kernel_calls copy_var_eqb].

Lemma dir_next_W (a : layer_args) (o : db_offsets) (s : sched_state) :
  dma_dir (next_W a o s) = 1.
Proof. reflexivity. Qed.

Lemma dir_write_back (a : layer_args) (o : db_offsets) (s : sched_state) :
  exists d, write_back a o s = dory_dma_memcpy_3d_custom_blocking d /\
            dma_dir d = 0 /\
            dma_ext d =
              ExtTile
                {| tile_base := l2_y a;
                   tile_i := _i_h_exec s; tile_j := _i_w_exec s;
                   tile_k := _i_nof_exec s;
                   tile_size_i := 16; tile_size_j := 16; tile_size_k := 32;
                   tile_stride_j := 16; tile_stride_k := 256;
                   tile_overlap_i := 0; tile_overlap_j := 0;
                   tile_overlap_k := 0;
                   tile_offset_i := 0; tile_offset_j := 0;
                   tile_offset_k := 0;
                   tile_data_size := 8 |} /\
            dma_loc d = u32 (u32 (l1_buffer a + 16388) + db_y o) /\
            dma_size d = 8192.
Proof.
  eexists. split; [reflexivity|]. cbn.
  repeat split.
  destruct (_i_nof_exec s + 1 =? 8), (_i_h_exec s + 1 =? 1),
    (_i_w_exec s + 1 =? 1); reflexivity.
Qed.

Lemma input_prefetches_iter (core : Z) (a : layer_args) (n : nat) :
  input_prefetches (iter_events core a n) =
  if Z.of_nat n <? 7
  then [next_x a (iter_offsets core a n) (iter_state core a n)]
  else [].
Proof.
  destruct (dir_write_back a (iter_offsets core a n) (iter_state core a n))
    as (d & Hd & _).
  iteration_cases core n; rewrite Hd; reflexivity.
Qed.

Lemma kernel_calls_iter (core : Z) (a : layer_args) (n : nat) :
  kernel_calls (iter_events core a n) =
  [kernel_args a (iter_offsets core a n) (iter_state core a n)].
Proof.
  destruct (dir_write_back a (iter_offsets core a n) (iter_state core a n))
    as (d & Hd & _).
  iteration_cases core n; rewrite Hd; reflexivity.
Qed.

Lemma weight_transfers_iter (core : Z) (a : layer_args) (n : nat) :
  weight_transfers (iter_events core a n) =
  if Z.of_nat n <? 7
  then [next_W a (iter_offsets core a n) (iter_state core a n)]
  else [].
Proof.
  destruct (dir_write_back a (iter_offsets core a n) (iter_state core a n))
    as (d & Hd & Hdir & _).
  iteration_cases core n; rewrite Hd; cbn [flat_map app];
    rewrite ?dir_next_W, Hdir; reflexivity.
Qed.

Lemma write_backs_iter (core : Z) (a : layer_args) (n : nat) :
  exists d,
    write_back a (iter_offsets core a n) (iter_state core a n) =
      dory_dma_memcpy_3d_custom_blocking d /\
    write_backs (iter_events core a n) = [d].
Proof.
  destruct (dir_write_back a (iter_offsets core a n) (iter_state core a n))
    as (d & Hd & Hdir & _).
  exists d. split; [exact Hd|].
  iteration_cases core n; rewrite Hd; cbn [flat_map app];
    rewrite ?dir_next_W, Hdir; reflexivity.
Qed.

Lemma act_copies_iter (core : Z) (a : layer_args) (n : nat) (v : copy_var) :
  act_copies v (iter_events core a n) =
  if (Z.of_nat n <? 7) && (core =? 0)
  then [match v with
        | Copy_k => next_k a (iter_offsets core a n) (iter_state core a n)
        | Copy_lambda =>
            next_lambda a (iter_offsets core a n) (iter_state core a n)
        end]
  else [].
Proof.
  destruct (dir_write_back a (iter_offsets core a n) (iter_state core a n))
    as (d & Hd & _).
  iteration_cases core n; rewrite Hd; destruct v; reflexivity.
Qed.

Lemma flat_map_concat {A B : Type} (f : A -> list B) (l : list (list A)) :
  flat_map f (concat l) = concat (map (flat_map f) l).
Proof.
  induction l as [|x l IH]; [reflexivity|].
  cbn [concat map]. rewrite flat_map_app, IH. reflexivity.
Qed.

Lemma input_prefetches_concat (l : list (list event)) :
  input_prefetches (concat l) = concat (map input_prefetches l).
Proof. apply flat_map_concat. Qed.

Lemma write_backs_concat (l : list (list event)) :
  write_backs (concat l) = concat (map write_backs l).
Proof. apply flat_map_concat. Qed.

Lemma weight_transfers_concat (l : list (list event)) :
  weight_transfers (concat l) = concat (map weight_transfers l).
Proof. apply flat_map_concat. Qed.

Lemma act_copies_concat (v : copy_var) (l : list (list event)) :
  act_copies v (concat l) = concat (map (act_copies v) l).
Proof. apply flat_map_concat. Qed.

(** The eight iterations, spelled out. *)
Lemma map_seq8 {A : Type} (f : nat -> A) :
  map f (seq 0 8) = [f 0; f 1; f 2; f 3; f 4; f 5; f 6; f 7]%nat.
Proof. reflexivity. Qed.

(** * The claims *)

(** ** C4 *)

(** C4.  The tile loop runs [N_TILES = 8] iterations; each of the first
    seven issues exactly one read-ahead of an input tile and the last one
    issues none, so that [N_TILES - 1 = 7] read-aheads are issued inside the
    loop. *)
Theorem input_prefetch_count (core : Z) (a : layer_args) :
  length (loop_traces core a) = Z.to_nat N_TILES /\
  map (fun t => length (input_prefetches t)) (loop_traces core a) =
    [1; 1; 1; 1; 1; 1; 1; 0]%nat /\
  length (input_prefetches (concat (loop_traces core a))) =
    Z.to_nat (N_TILES - 1).
Proof.
  rewrite loop_traces_eq. split; [reflexivity|]. split.
  - rewrite map_map, map_seq8.
    rewrite !input_prefetches_iter. reflexivity.
  - rewrite input_prefetches_concat, map_map, map_seq8.
    rewrite !input_prefetches_iter. reflexivity.
Qed.

(** ** C5 *)

(** C5.  The four padding flags handed to the kernel are those of
    [padding_flags] at the exec height and width indices: top is 1 exactly
    at height block 0, bottom exactly at the last height block, left exactly
    at width block 0, right exactly at the last width block.  Both spatial
    grids have size 1, and in each of the eight iterations the kernel gets
    all four flags set. *)
Theorem padding_flags_by_exec_position (core : Z) (a : layer_args) :
  (forall h w : Z,
     let '(p_t, p_b, p_l, p_r) := padding_flags h w in
     (p_t = 1 <-> h = 0) /\ (p_b = 1 <-> h = GRID_H - 1) /\
     (p_l = 1 <-> w = 0) /\ (p_r = 1 <-> w = GRID_W - 1)) /\
  (forall (o : db_offsets) (s : sched_state),
     let k := kernel_args a o s in
     (k_p_t k, k_p_b k, k_p_l k, k_p_r k) =
     padding_flags (_i_h_exec s) (_i_w_exec s)) /\
  map (fun t => map (fun k => (k_p_t k, k_p_b k, k_p_l k, k_p_r k))
                    (kernel_calls t))
      (loop_traces core a) =
  repeat [(1, 1, 1, 1)] (Z.to_nat N_TILES).
Proof.
  assert (K : forall (o : db_offsets) (s : sched_state),
             let k := kernel_args a o s in
             (k_p_t k, k_p_b k, k_p_l k, k_p_r k) =
             padding_flags (_i_h_exec s) (_i_w_exec s)).
  { intros o s. unfold kernel_args.
    destruct (padding_flags (_i_h_exec s) (_i_w_exec s)) as [[[pt pb] pl] pr].
    reflexivity. }
  split; [|split; [exact K|]].
  - intros h w. unfold padding_flags, GRID_H, GRID_W.
    change (1 - 1) with 0.
    destruct (Z.eqb_spec h 0), (Z.eqb_spec w 0); repeat split; intros; lia.
  - rewrite loop_traces_eq, map_map.
    assert (E : forall n,
               map (fun k => (k_p_t k, k_p_b k, k_p_l k, k_p_r k))
                   (kernel_calls (iter_events core a n)) = [(1, 1, 1, 1)]).
    { intros n. rewrite kernel_calls_iter. cbn [map]. cbn zeta in K.
      rewrite K.
      destruct (iter_state_coords core a n) as (_ & _ & He & _).
      cbn zeta in He. injection He as _ -> ->. reflexivity. }
    rewrite map_seq8, !E. reflexivity.
Qed.

(** ** C6 *)

(** C6.  Each of the eight iterations writes back exactly one output tile,
    taken at the exec coordinate of that iteration in the output tensor
    [l2_y]; these coordinates are the channel blocks 0 to 7 at height block
    0 and width block 0, each once. *)
Theorem output_tiles_written_once (core : Z) (a : layer_args) :
  let coords :=
    map (fun n => exec_coord (iter_state core a n))
        (seq 0 (Z.to_nat N_TILES)) in
  map (fun t => map (fun d => tile_coord (dma_ext d)) (write_backs t))
      (loop_traces core a) =
    map (fun c => [Some c]) coords /\
  Forall (fun t => Forall (fun d => exists tl, dma_ext d = ExtTile tl /\
                                               tile_base tl = l2_y a)
                          (write_backs t))
         (loop_traces core a) /\
  length (write_backs (concat (loop_traces core a))) = Z.to_nat N_TILES /\
  coords = [(0, 0, 0); (1, 0, 0); (2, 0, 0); (3, 0, 0);
            (4, 0, 0); (5, 0, 0); (6, 0, 0); (7, 0, 0)] /\
  NoDup coords.
Proof.
  cbn zeta. rewrite loop_traces_eq.
  change (Z.to_nat N_TILES) with 8%nat.
  assert (W : forall n, exists d,
             write_backs (iter_events core a n) = [d] /\
             tile_coord (dma_ext d) =
               Some (exec_coord (iter_state core a n)) /\
             exists tl, dma_ext d = ExtTile tl /\ tile_base tl = l2_y a).
  { intros n.
    destruct (write_backs_iter core a n) as (d & Hd & Hw).
    destruct (dir_write_back a (iter_offsets core a n) (iter_state core a n))
      as (d' & Hd' & _ & Hext & _).
    rewrite Hd in Hd'. injection Hd' as <-.
    exists d. split; [exact Hw|]. rewrite Hext. split; [reflexivity|].
    eexists; split; reflexivity. }
  assert (C : map (fun n => exec_coord (iter_state core a n)) (seq 0 8) =
              [(0, 0, 0); (1, 0, 0); (2, 0, 0); (3, 0, 0);
               (4, 0, 0); (5, 0, 0); (6, 0, 0); (7, 0, 0)]).
  { rewrite map_seq8.
    repeat match goal with
      | |- context [exec_coord (iter_state core a ?n)] =>
          let H := fresh in
          destruct (iter_state_coords core a n) as (_ & _ & H & _);
          cbn zeta in H; rewrite H; clear H
      end.
    reflexivity. }
  split; [|split; [|split; [|split]]].
  - rewrite !map_map. apply map_ext. intros n.
    destruct (W n) as (d & -> & Hc & _). cbn [map]. rewrite Hc. reflexivity.
  - apply Forall_map, Forall_forall. intros n _.
    destruct (W n) as (d & -> & _ & Ht). constructor; [exact Ht|constructor].
  - rewrite write_backs_concat, map_map, map_seq8.
    repeat match goal with
      | |- context [write_backs (iter_events core a ?n)] =>
          let d := fresh "d" in
          let H := fresh in
          destruct (W n) as (d & H & _); rewrite H; clear H
      end.
    reflexivity.
  - exact C.
  - rewrite C.
    repeat (constructor; [cbn; intuition congruence|]). constructor.
Qed.

(** ** C7 *)

Lemma set_iter_frame (v : Z) (s : sched_state) :
  exec_coord (set_iter v s) = exec_coord s /\
  load_coord (set_iter v s) = load_coord s /\
  db_state_x (set_iter v s) = db_state_x s /\
  db_state_y (set_iter v s) = db_state_y s.
Proof. repeat split. Qed.

Lemma update_exec_coord (s : sched_state) :
  exec_coord (update_exec s) = load_coord s /\
  _i_nif_exec (update_exec s) = _i_nif_load s /\
  load_coord (update_exec s) = load_coord s.
Proof. repeat split. Qed.

Lemma loop_body_exec_coord (core : Z) (a : layer_args) (s : sched_state) :
  exec_coord (fst (loop_body core a s)) = load_coord (advance_load s).
Proof.
  rewrite loop_body_fst.
  destruct (prefetch_frame core a (db_offsets_of (advance_load s))
              (db_update (advance_load s))) as (_ & (F1 & F2 & F3 & F4) & _).
  destruct (update_exec_coord
              (fst (prefetch core a (db_offsets_of (advance_load s))
                      (db_update (advance_load s))))) as (-> & _).
  unfold load_coord. rewrite F1, F3, F4.
  unfold db_update. cbn zeta.
  destruct (reload _); reflexivity.
Qed.

Lemma advance_load_odometer (s : sched_state) :
  0 <= _i_w_load s < GRID_W ->
  0 <= _i_h_load s < GRID_H ->
  load_coord (advance_load s) = odometer_step (load_coord s) /\
  rank (load_coord (advance_load s)) = rank (load_coord s) + 1 /\
  _i_nif_load (advance_load s) - _i_nif_load s =
    _i_nof_load (advance_load s) - _i_nof_load s.
Proof.
  unfold GRID_W, GRID_H. intros Hw Hh.
  assert (_i_w_load s = 0) as Ew by lia.
  assert (_i_h_load s = 0) as Eh by lia.
  unfold advance_load, load_coord, odometer_step, rank, GRID_W, GRID_H.
  destruct s; cbn in *. subst. cbn. repeat split; lia.
Qed.

(** C7.  From a load coordinate inside the grid, [advance_load] is one step
    of the odometer: the load coordinate becomes the next one in the
    enumeration order (rank plus one), the width index wrapping first, then
    the height index, then the carry reaching both channel-block indices.
    At the end of the body the exec coordinate is the load coordinate.  In
    the run, the load coordinate on entry to every iteration is inside the
    grid, the read-ahead of iteration [n] is addressed by the advanced load
    coordinate, and iteration [n + 1] executes at that coordinate. *)
Theorem load_coordinate_odometer (core : Z) (a : layer_args)
    (s : sched_state) (n : nat) :
  0 <= _i_w_load s < GRID_W ->
  0 <= _i_h_load s < GRID_H ->
  (S n < 8)%nat ->
  (load_coord (advance_load s) = odometer_step (load_coord s) /\
   rank (load_coord (advance_load s)) = rank (load_coord s) + 1 /\
   _i_nif_load (advance_load s) - _i_nif_load s =
     _i_nof_load (advance_load s) - _i_nof_load s) /\
  (exec_coord (update_exec s) = load_coord s /\
   _i_nif_exec (update_exec s) = _i_nif_load s /\
   exec_coord (fst (loop_body core a s)) = load_coord (advance_load s)) /\
  (0 <= _i_w_load (entry_state core a n) < GRID_W /\
   0 <= _i_h_load (entry_state core a n) < GRID_H /\
   load_coord (iter_state core a n) =
     odometer_step (load_coord (entry_state core a n)) /\
   map (fun d => tile_coord (dma_ext d))
       (input_prefetches (iter_events core a n)) =
     [Some (load_coord (iter_state core a n))] /\
   exec_coord (entry_state core a (S n)) = load_coord (iter_state core a n) /\
   exec_coord (iter_state core a (S n)) = load_coord (iter_state core a n)).
Proof.
  intros Hw Hh Hn. split; [exact (advance_load_odometer s Hw Hh)|]. split.
  - destruct (update_exec_coord s) as (E1 & E2 & _).
    split; [exact E1|]. split; [exact E2|]. apply loop_body_exec_coord.
  - pose proof (entry_state_at_tile core a n)
      as (_ & (_ & _ & L3 & L4) & _).
    assert (R1 : 0 <= _i_w_load (entry_state core a n) < GRID_W)
      by (rewrite L4; unfold GRID_W; lia).
    assert (R2 : 0 <= _i_h_load (entry_state core a n) < GRID_H)
      by (rewrite L3; unfold GRID_H; lia).
    destruct (advance_load_odometer _ R1 R2) as (O1 & _).
    destruct (iter_state_coords core a n) as (Ln & Lnif & _).
    destruct (iter_state_coords core a (S n)) as (_ & _ & En & _).
    cbn zeta in *.
    split; [exact R1|]. split; [exact R2|]. split; [exact O1|].
    split; [|split].
    + rewrite input_prefetches_iter.
      assert ((Z.of_nat n <? 7) = true) as -> by (apply Z.ltb_lt; lia).
      cbn [map next_x dma_ext tile_coord tile_k tile_i tile_j].
      rewrite Ln. unfold load_coord in Ln. injection Ln as _ -> ->.
      rewrite Lnif. reflexivity.
    + change (entry_state core a (S n))
        with (next_state core a (entry_state core a n)).
      unfold next_state.
      rewrite (proj1 (set_iter_frame _ _)).
      apply loop_body_exec_coord.
    + rewrite En, Ln. rewrite Nat2Z.inj_succ. reflexivity.
Qed.

Lemma load_coordinate_odometer_witness :
  (0 <= _i_w_load init_state < GRID_W /\
   0 <= _i_h_load init_state < GRID_H /\ (1 < 8)%nat) /\
  exec_coord (iter_state 0 sample_args 1) =
  load_coord (iter_state 0 sample_args 0).
Proof.
  assert (Hw : 0 <= _i_w_load init_state < GRID_W) by (vm_compute; split; congruence).
  assert (Hh : 0 <= _i_h_load init_state < GRID_H) by (vm_compute; split; congruence).
  assert (Hn : (1 < 8)%nat) by lia.
  split; [tauto|].
  apply (load_coordinate_odometer 0 sample_args init_state Hw Hh Hn).
Defined.

(** ** C2 *)

Lemma kernel_args_pointers (a : layer_args) (o : db_offsets) (s : sched_state) :
  let k := kernel_args a o s in
  k_x k = u32 (u32 (l1_buffer a + 0) + exec_db_x o) /\
  k_W k = u32 (u32 (l1_buffer a + 32776) + exec_db_W o) /\
  k_y k = u32 (u32 (l1_buffer a + 16388) + db_y o) /\
  k_k k = u32 (u32 (l1_buffer a + 33356) + exec_db_act o) /\
  k_lambda k = u32 (u32 (l1_buffer a + 33616) + exec_db_act o) /\
  k_im2col k = u32 (l1_buffer a + 33896) /\
  k_pwt_buffer k = u32 (u32 (l1_buffer a + 33896) + 456).
Proof.
  unfold kernel_args.
  destruct (padding_flags (_i_h_exec s) (_i_w_exec s)) as [[[pt pb] pl] pr].
  repeat split.
Qed.

Lemma prologue_trace_eq (core : Z) (a : layer_args) :
  prologue_trace core a = snd (prologue core a init_state).
Proof. unfold prologue_trace. rewrite layer_run_eq. reflexivity. Qed.

Lemma even_of_nat_succ (n : nat) :
  Z.even (Z.of_nat (S n)) = negb (Z.even (Z.of_nat n)).
Proof. rewrite Nat2Z.inj_succ, Z.even_succ. symmetry. apply Z.negb_even. Qed.

(** C2.  In every iteration the kernel is called once, and the input
    pointer it reads is the local destination of the input transfer issued
    just before: the transfer of the prologue for iteration 0, the
    read-ahead of iteration [n - 1] otherwise.  In terms of offsets,
    [exec_db_x] of iteration [n] is [db_x] of iteration [n - 1] (0 for the
    prologue), and [db_x] and [exec_db_x] of one iteration differ. *)
Theorem exec_slot_filled_by_previous_load (core : Z) (a : layer_args)
    (n : nat) :
  (n < 8)%nat ->
  let previous :=
    match n with
    | O => prologue_trace core a
    | S m => iter_events core a m
    end in
  length (kernel_calls (iter_events core a n)) = 1%nat /\
  length (input_prefetches previous) = 1%nat /\
  map k_x (kernel_calls (iter_events core a n)) =
    map dma_loc (input_prefetches previous) /\
  exec_db_x (iter_offsets core a n) =
    match n with
    | O => 0
    | S m => db_x (iter_offsets core a m)
    end /\
  db_x (iter_offsets core a n) <> exec_db_x (iter_offsets core a n).
Proof.
  intros Hn. cbn zeta. rewrite kernel_calls_iter. cbn [length map].
  destruct (kernel_args_pointers a (iter_offsets core a n)
              (iter_state core a n)) as (-> & _).
  split; [reflexivity|].
  destruct n as [|m].
  - rewrite prologue_trace_eq. rewrite iter_offsets_eq.
    unfold prologue. destruct (core =? 0); cbn; repeat split; lia.
  - rewrite input_prefetches_iter.
    assert ((Z.of_nat m <? 7) = true) as -> by (apply Z.ltb_lt; lia).
    cbn [length map next_x dma_loc].
    rewrite !iter_offsets_eq. cbn zeta.
    cbn [db_x exec_db_x]. rewrite even_of_nat_succ.
    destruct (Z.even (Z.of_nat m)); cbn [negb]; repeat split; lia.
Qed.

Lemma exec_slot_filled_by_previous_load_witness :
  (3 < 8)%nat /\
  exec_db_x (iter_offsets 0 sample_args 3) =
  db_x (iter_offsets 0 sample_args 2).
Proof.
  assert (H : (3 < 8)%nat) by lia.
  split; [exact H|].
  apply (exec_slot_filled_by_previous_load 0 sample_args H).
Defined.

(** ** C1 *)

Lemma update_exec_parities (s : sched_state) :
  db_state_x (update_exec s) = db_state_x s /\
  db_state_y (update_exec s) = db_state_y s.
Proof. split; reflexivity. Qed.

Lemma loop_body_parities (core : Z) (a : layer_args) (s : sched_state) :
  db_state_x (fst (loop_body core a s)) = lnot (db_state_x s) /\
  db_state_y (fst (loop_body core a s)) = db_state_y s.
Proof.
  rewrite loop_body_fst.
  destruct (prefetch_frame core a (db_offsets_of (advance_load s))
              (db_update (advance_load s))) as ((F1 & _ & F3 & _) & _).
  rewrite (proj1 (update_exec_parities _)), (proj2 (update_exec_parities _)).
  rewrite F1, F3. unfold db_update. cbn zeta.
  assert (A : db_state_x (advance_load s) = db_state_x s /\
              db_state_y (advance_load s) = db_state_y s).
  { unfold advance_load. cbn zeta.
    destruct (_ =? 1); [destruct (_ =? 1)|]; split; reflexivity. }
  destruct A as (Ax & Ay).
  destruct (reload _); cbn; rewrite ?Ax, ?Ay; split; reflexivity.
Qed.

(** The output parity is not toggled between iterations 0 and 1, and the
    output offset is the same in both. *)
Lemma output_parity_not_toggled :
  db_state_y (entry_state 0 sample_args 1) <>
    lnot (db_state_y (entry_state 0 sample_args 0)) /\
  db_y (iter_offsets 0 sample_args 1) = db_y (iter_offsets 0 sample_args 0).
Proof. vm_compute. split; [discriminate|reflexivity]. Qed.

(** C1, amended.  Every execution of the loop body toggles the parity of
    the input role and leaves the parity of the output role as it is.  In
    the run, the load offset and the exec offset of the input role in
    iteration [n + 1] differ from those of iteration [n]; the parity of the
    output role is 1 throughout and the output offset is 0 in every
    iteration. *)
Theorem input_parity_flips_output_fixed (core : Z) (a : layer_args)
    (s : sched_state) (n : nat) :
  (S n < 8)%nat ->
  (db_state_x (fst (loop_body core a s)) = lnot (db_state_x s) /\
   db_state_y (fst (loop_body core a s)) = db_state_y s) /\
  (db_state_x (entry_state core a (S n)) =
     lnot (db_state_x (entry_state core a n)) /\
   db_x (iter_offsets core a (S n)) <> db_x (iter_offsets core a n) /\
   exec_db_x (iter_offsets core a (S n)) <>
     exec_db_x (iter_offsets core a n)) /\
  (db_state_y (entry_state core a n) = 1 /\
   db_state_y (entry_state core a (S n)) = 1 /\
   db_y (iter_offsets core a n) = 0 /\
   db_y (iter_offsets core a (S n)) = 0).
Proof.
  intros Hn. split; [apply loop_body_parities|]. split; [split|].
  - change (entry_state core a (S n))
      with (next_state core a (entry_state core a n)).
    unfold next_state.
    rewrite (proj1 (proj2 (proj2 (set_iter_frame _ _)))).
    apply loop_body_parities.
  - rewrite !iter_offsets_eq. cbn zeta. cbn [db_x exec_db_x].
    rewrite even_of_nat_succ.
    destruct (Z.even (Z.of_nat n)); cbn [negb]; split; lia.
  - pose proof (entry_state_at_tile core a n) as (_ & _ & _ & _ & _ & Y0).
    pose proof (entry_state_at_tile core a (S n))
      as (_ & _ & _ & _ & _ & Y1).
    rewrite !iter_offsets_eq. cbn zeta. cbn [db_y]. tauto.
Qed.

Lemma input_parity_flips_output_fixed_witness :
  (1 < 8)%nat /\
  db_state_x (entry_state 0 sample_args 1) =
  lnot (db_state_x (entry_state 0 sample_args 0)).
Proof.
  assert (H : (1 < 8)%nat) by lia.
  split; [exact H|].
  apply (input_parity_flips_output_fixed 0 sample_args init_state H).
Defined.

(** ** C3 *)

Lemma u32_add_l (x y : Z) : u32 (u32 x + y) = u32 (x + y).
Proof. unfold u32. apply Zplus_mod_idemp_l. Qed.

Lemma weight_transfers_app (t1 t2 : list event) :
  weight_transfers (t1 ++ t2) = weight_transfers t1 ++ weight_transfers t2.
Proof. apply flat_map_app. Qed.

Lemma act_copies_app (v : copy_var) (t1 t2 : list event) :
  act_copies v (t1 ++ t2) = act_copies v t1 ++ act_copies v t2.
Proof. apply flat_map_app. Qed.

Lemma weight_transfers_prologue (core : Z) (a : layer_args) :
  map (fun d => weight_block a (dma_ext d))
      (weight_transfers (prologue_trace core a)) = [Some 0].
Proof.
  rewrite prologue_trace_eq. unfold prologue.
  destruct (core =? 0); cbn; rewrite Z.eqb_refl; reflexivity.
Qed.

Lemma act_copies_prologue (core : Z) (a : layer_args) (v : copy_var) :
  map copy_ext (act_copies v (prologue_trace core a)) =
  if core =? 0
  then [u32 (l2_W a + match v with Copy_k => 2304 | Copy_lambda => 3328 end)]
  else [].
Proof.
  rewrite prologue_trace_eq. unfold prologue.
  destruct (core =? 0), v; reflexivity.
Qed.

Lemma nof_load_iter (core : Z) (a : layer_args) (n : nat) :
  _i_nof_load (iter_state core a n) = Z.of_nat n + 1.
Proof.
  destruct (iter_state_coords core a n) as (H & _).
  cbn zeta in H. unfold load_coord in H. congruence.
Qed.

Lemma copy_ext_next (a : layer_args) (o : db_offsets) (s : sched_state) :
  copy_ext (next_k a o s) = u32 (l2_W a + 2304 + 128 * _i_nof_load s) /\
  copy_ext (next_lambda a o s) = u32 (l2_W a + 3328 + 128 * _i_nof_load s).
Proof. cbn [next_k next_lambda copy_ext]. rewrite !u32_add_l. split; reflexivity. Qed.

(** Calls of the read-ahead step in any state. *)
Lemma prefetch_transfers (core : Z) (a : layer_args) (o : db_offsets)
    (s : sched_state) :
  weight_transfers (snd (prefetch core a o s)) =
    (if (iter s <? N_TILES - 1) && reload s then [next_W a o s] else []) /\
  act_copies Copy_k (snd (prefetch core a o s)) =
    (if (iter s <? N_TILES - 1) && reload s && (core =? 0)
     then [next_k a o s] else []) /\
  act_copies Copy_lambda (snd (prefetch core a o s)) =
    (if (iter s <? N_TILES - 1) && reload s && (core =? 0)
     then [next_lambda a o s] else []).
Proof.
  unfold prefetch. change (N_TILES - 1) with (8 * 1 * 1 - 1).
  destruct (iter s <? 8 * 1 * 1 - 1), (reload s), (core =? 0);
    repeat split.
Qed.

(** In the last iteration of core 0 the load and exec channel blocks
    differ, and neither the weights nor the requantization parameters are
    transferred. *)
Lemma no_reload_in_last_iteration :
  reload (iter_state 0 sample_args 7) = true /\
  weight_transfers (iter_events 0 sample_args 7) = [] /\
  act_copies Copy_k (iter_events 0 sample_args 7) = [] /\
  act_copies Copy_lambda (iter_events 0 sample_args 7) = [].
Proof. vm_compute. repeat split. Qed.

(** C3, amended.  Over the prologue and the loop, the weight tile is
    transferred eight times, once for each channel block 0 to 7, and core 0
    submits eight copies of the multipliers and eight copies of the shifts,
    the [c]-th of them reading the 128 bytes of channel block [c] (the other
    cores submit none).  In the loop, the read-ahead step issues these
    transfers exactly when the iteration is not the last one and the
    (output, input) channel-block pair of the load coordinate differs from
    that of the exec coordinate; in the run the pair differs in all eight
    iterations and the transfers are issued in the first seven. *)
Theorem weights_once_per_channel_block (core : Z) (a : layer_args) :
  let run := layerConvDWBNRelu9 core a in
  let blocks := [0; 1; 2; 3; 4; 5; 6; 7] in
  (map (fun d => weight_block a (dma_ext d)) (weight_transfers run) =
     map Some blocks /\
   map copy_ext (act_copies Copy_k run) =
     (if core =? 0
      then map (fun c => u32 (l2_W a + 2304 + 128 * c)) blocks else []) /\
   map copy_ext (act_copies Copy_lambda run) =
     (if core =? 0
      then map (fun c => u32 (l2_W a + 3328 + 128 * c)) blocks else [])) /\
  (forall (o : db_offsets) (s : sched_state),
     weight_transfers (snd (prefetch core a o s)) =
       (if (iter s <? N_TILES - 1) && reload s then [next_W a o s] else []) /\
     act_copies Copy_k (snd (prefetch core a o s)) =
       (if (iter s <? N_TILES - 1) && reload s && (core =? 0)
        then [next_k a o s] else []) /\
     act_copies Copy_lambda (snd (prefetch core a o s)) =
       (if (iter s <? N_TILES - 1) && reload s && (core =? 0)
        then [next_lambda a o s] else [])) /\
  (map (fun n => reload (iter_state core a n)) (seq 0 8) =
     repeat true 8 /\
   map (fun t => length (weight_transfers t)) (loop_traces core a) =
     [1; 1; 1; 1; 1; 1; 1; 0]%nat).
Proof.
  cbn zeta. split; [|split; [apply prefetch_transfers|]].
  - unfold layerConvDWBNRelu9. rewrite loop_traces_eq.
    rewrite weight_transfers_app, !act_copies_app, !map_app.
    rewrite weight_transfers_concat, !act_copies_concat, !map_map.
    rewrite weight_transfers_prologue, !act_copies_prologue.
    rewrite !map_seq8.
    rewrite !weight_transfers_iter, !act_copies_iter.
    cbn [Z.of_nat Pos.of_succ_nat Pos.succ Z.ltb Z.compare Pos.compare
         Pos.compare_cont andb concat app map].
    cbn [next_W next_k next_lambda dma_ext copy_ext weight_block tile_base
         tile_i].
    rewrite !nof_load_iter, Z.eqb_refl.
    split; [reflexivity|].
    destruct (core =? 0); cbn [andb concat app map]; [|split; reflexivity].
    rewrite !(proj1 (copy_ext_next _ _ _)), !(proj2 (copy_ext_next _ _ _)).
    rewrite !nof_load_iter.
    cbn [Z.of_nat Pos.of_succ_nat Pos.succ Z.add Pos.add Z.mul Pos.mul].
    rewrite !Z.add_0_r. split; reflexivity.
  - split.
    + rewrite map_seq8.
      repeat match goal with
        | |- context [reload (iter_state core a ?n)] =>
            let H := fresh in
            destruct (iter_state_coords core a n) as (_ & _ & _ & _ & _ & H);
            cbn zeta in H; rewrite H; clear H
        end.
      reflexivity.
    + rewrite loop_traces_eq, map_map, map_seq8.
      rewrite !weight_transfers_iter. reflexivity.
Qed.

(** ** C8 *)

(** In iteration 0 of core 0 the multipliers are submitted at position 2,
    the kernel is called at position 5 and the wait for the multipliers
    comes at position 7: after the kernel call, not before it. *)
Lemma wait_comes_after_kernel :
  let t := iter_events 0 sample_args 0 in
  exists ic ik iw : nat,
    index_of (is_act_copy Copy_k) t = Some ic /\
    index_of is_kernel t = Some ik /\
    index_of (is_wait Copy_k) t = Some iw /\
    (ic, ik, iw) = (2, 5, 7)%nat /\
    ~ (iw < ik)%nat.
Proof.
  exists 2%nat, 5%nat, 7%nat.
  repeat split; try (vm_compute; reflexivity). lia.
Qed.

Lemma db_act_next_iteration (core : Z) (a : layer_args) (n : nat) :
  exec_db_act (iter_offsets core a (S n)) = db_act (iter_offsets core a n).
Proof.
  rewrite !iter_offsets_eq. cbn zeta. cbn [exec_db_act db_act].
  rewrite even_of_nat_succ.
  destruct (Z.even (Z.of_nat n)); reflexivity.
Qed.

(** C8, amended.  When an iteration submits the copy of the multipliers, it
    is an iteration of core 0 and its calls are, in this order: the input
    read-ahead, the blocking weight transfer, the two submissions, a
    barrier, the kernel, a barrier, the waits for the two copies, the output
    write-back and a barrier.  The waits thus come after the kernel call of
    the iteration that submitted the copies and before the barrier that ends
    it, hence before the kernel call of the next iteration, which is the one
    that reads the slots the copies fill. *)
Theorem requant_wait_follows_compute (core : Z) (a : layer_args) (n : nat)
    (ck : pi_cl_dma_copy_t) :
  In (pi_cl_dma_memcpy Copy_k ck) (iter_events core a n) ->
  core = 0 /\
  exists (d_x d_W d_y : dma_3d) (cl : pi_cl_dma_copy_t) (kc : kernel_call),
    iter_events core a n =
      [dory_dma_memcpy_3d_custom_hwc_to_chw d_x;
       dory_dma_memcpy_3d_custom_blocking d_W;
       pi_cl_dma_memcpy Copy_k ck;
       pi_cl_dma_memcpy Copy_lambda cl;
       pi_cl_team_barrier;
       pulp_nn_depthwise_generic kc;
       pi_cl_team_barrier;
       pi_cl_dma_wait Copy_k (Some ck);
       pi_cl_dma_wait Copy_lambda (Some cl);
       dory_dma_memcpy_3d_custom_blocking d_y;
       pi_cl_team_barrier] /\
    map k_k (kernel_calls (iter_events core a (S n))) = [copy_loc ck] /\
    map k_lambda (kernel_calls (iter_events core a (S n))) = [copy_loc cl] /\
    k_k kc <> copy_loc ck /\ k_lambda kc <> copy_loc cl.
Proof.
  intros Hin.
  destruct (dir_write_back a (iter_offsets core a n) (iter_state core a n))
    as (d & Hd & _).
  pose proof (kernel_args_pointers a (iter_offsets core a (S n))
                (iter_state core a (S n))) as Kn.
  pose proof (kernel_args_pointers a (iter_offsets core a n)
                (iter_state core a n)) as K.
  cbn zeta in Kn, K.
  destruct Kn as (_ & _ & _ & Kk & Kl & _).
  destruct K as (_ & _ & _ & Kk0 & Kl0 & _).
  rewrite kernel_calls_iter. cbn [map]. rewrite Kk, Kl.
  rewrite db_act_next_iteration.
  rewrite (iter_events_eq core a n) in *. cbn zeta in *. rewrite Hd in *.
  assert (Hneq : forall c : Z,
             0 <= c -> c + 128 < 2 ^ 32 ->
             u32 (u32 (l1_buffer a + c) +
                  exec_db_act (iter_offsets core a n)) <>
             u32 (u32 (l1_buffer a + c) + db_act (iter_offsets core a n))).
  { intros c Hc0 Hc E.
    apply (f_equal (fun z => u32 (z - l1_buffer a))) in E.
    rewrite iter_offsets_eq in E. cbn zeta in E.
    cbn [exec_db_act db_act] in E.
    destruct (Z.even (Z.of_nat n));
      rewrite !u32_local in E by lia; lia. }
  destruct (Z.of_nat n <? 7) eqn:E7, (Z.eqb_spec core 0) as [Ec|Ec];
    cbn [app andb In] in Hin.
  - split; [exact Ec|].
    assert (ck = next_k a (iter_offsets core a n) (iter_state core a n))
      as ->.
    { decompose [or] Hin; try discriminate; try contradiction.
      match goal with
      | H : pi_cl_dma_memcpy Copy_k _ = pi_cl_dma_memcpy Copy_k _ |- _ =>
          injection H as H; symmetry; exact H
      end. }
    do 5 eexists. split; [reflexivity|].
    cbn [next_k next_lambda copy_loc].
    rewrite Kk0, Kl0.
    split; [reflexivity|]. split; [reflexivity|].
    split; apply Hneq; lia.
  - exfalso. decompose [or] Hin; try discriminate; contradiction.
  - exfalso. decompose [or] Hin; try discriminate; contradiction.
  - exfalso. decompose [or] Hin; try discriminate; contradiction.
Qed.

Lemma requant_wait_follows_compute_witness :
  In (pi_cl_dma_memcpy Copy_k
        (next_k sample_args (iter_offsets 0 sample_args 0)
           (iter_state 0 sample_args 0)))
     (iter_events 0 sample_args 0) /\
  map k_k (kernel_calls (iter_events 0 sample_args 1)) =
  [copy_loc (next_k sample_args (iter_offsets 0 sample_args 0)
               (iter_state 0 sample_args 0))].
Proof.
  assert (H : In (pi_cl_dma_memcpy Copy_k
                    (next_k sample_args (iter_offsets 0 sample_args 0)
                       (iter_state 0 sample_args 0)))
                 (iter_events 0 sample_args 0))
    by (vm_compute; right; right; left; reflexivity).
  split; [exact H|].
  destruct (requant_wait_follows_compute _ _ _ _ H)
    as (_ & dx & dW & dy & cl & kc & _ & Hk & _).
  exact Hk.
Defined.

(** ** C9 *)

Lemma u32_local1 (base c : Z) :
  0 <= c < 2 ^ 32 -> u32 (u32 (base + c) - base) = c.
Proof.
  intros H. unfold u32. rewrite Zminus_mod_idemp_l.
  replace (base + c - base) with c by ring. apply Z.mod_small; lia.
Qed.

Lemma local_off_slot (a : layer_args) (c off : Z) :
  0 <= off + c < 4294967296 ->
  local_off a (u32 (u32 (l1_buffer a + c) + off)) = c + off.
Proof. apply u32_local. Qed.

Lemma local_off_base (a : layer_args) (c : Z) :
  0 <= c < 4294967296 -> local_off a (u32 (l1_buffer a + c)) = c.
Proof. apply u32_local1. Qed.

Lemma next_sizes (a : layer_args) (o : db_offsets) (s : sched_state) :
  dma_size (next_x a o s) = 8192 /\ dma_size (next_W a o s) = 288 /\
  copy_size (next_k a o s) = 128 /\ copy_size (next_lambda a o s) = 128.
Proof.
  cbn [next_x next_W next_k next_lambda dma_size copy_size].
  destruct (_i_nif_load s + 1 =? 8), (_i_nof_load s + 1 =? 8),
    (_i_h_load s + 1 =? 1), (_i_w_load s + 1 =? 1); repeat split.
Qed.

(** The offsets of an iteration are those of one of the two slots. *)
Lemma iter_offsets_slots (core : Z) (a : layer_args) (n : nat) :
  let o := iter_offsets core a n in
  (db_x o = 0 \/ db_x o = 8192) /\ (exec_db_x o = 0 \/ exec_db_x o = 8192) /\
  (db_W o = 0 \/ db_W o = 288) /\ (exec_db_W o = 0 \/ exec_db_W o = 288) /\
  (db_act o = 0 \/ db_act o = 128) /\
  (exec_db_act o = 0 \/ exec_db_act o = 128) /\
  db_y o = 0.
Proof.
  cbn zeta. rewrite iter_offsets_eq. cbn zeta.
  destruct (Z.even (Z.of_nat n)); cbn; tauto.
Qed.

Ltac layout_of_call :=
  split; [constructor; [|constructor]|constructor];
  cbn [dma_local_ranges dma_loc dma_size dma_dir copy_loc copy_size Z.eqb
       Pos.eqb range_in_region];
  rewrite ?local_off_slot, ?local_off_base by lia;
  change (u16 128) with 128;
  cbn [region_lo region_hi]; lia.

Lemma respects_layout_prologue (core : Z) (a : layer_args) :
  Forall (respects_layout a) (prologue_trace core a).
Proof.
  assert (Eb : respects_layout a pi_cl_team_barrier)
    by (split; constructor).
  assert (Ew : forall v c, respects_layout a (pi_cl_dma_wait v c))
    by (split; constructor).
  rewrite prologue_trace_eq. unfold prologue.
  destruct (core =? 0); cbn [fst snd app];
    repeat (constructor; [first [exact Eb | apply Ew | layout_of_call]|]);
    constructor.
Qed.

Lemma respects_layout_iter (core : Z) (a : layer_args) (n : nat) :
  Forall (respects_layout a) (iter_events core a n).
Proof.
  destruct (dir_write_back a (iter_offsets core a n) (iter_state core a n))
    as (d & Hd & Hdir & _ & Hloc & Hsize).
  pose proof (kernel_args_pointers a (iter_offsets core a n)
                (iter_state core a n)) as K.
  pose proof (next_sizes a (iter_offsets core a n) (iter_state core a n))
    as (Sx & SW & Sk & Sl).
  destruct (iter_offsets_slots core a n)
    as (Ox & Oex & OW & OeW & Oa & Oea & Oy).
  cbn zeta in *.
  destruct K as (Kx & KW & Ky & Kk & Kl & Ki & Kp).
  rewrite iter_events_eq. cbn zeta. rewrite Hd.
  set (o := iter_offsets core a n) in *.
  set (s1 := iter_state core a n) in *.
  assert (Ex : respects_layout a
                 (dory_dma_memcpy_3d_custom_hwc_to_chw (next_x a o s1))).
  { split; [|constructor]. constructor; [|constructor].
    cbn [range_in_region]. rewrite Sx.
    change (dma_loc (next_x a o s1))
      with (u32 (u32 (l1_buffer a + 0) + db_x o)).
    rewrite local_off_slot by lia. cbn [region_lo region_hi]. lia. }
  assert (EW : respects_layout a
                 (dory_dma_memcpy_3d_custom_blocking (next_W a o s1))).
  { split; [|constructor]. constructor; [|constructor].
    cbn [dma_local_ranges]. rewrite dir_next_W. cbn [Z.eqb Pos.eqb].
    cbn [range_in_region]. rewrite SW.
    change (dma_loc (next_W a o s1))
      with (u32 (u32 (l1_buffer a + 32776) + db_W o)).
    rewrite local_off_slot by lia. cbn [region_lo region_hi]. lia. }
  assert (Ek : respects_layout a (pi_cl_dma_memcpy Copy_k (next_k a o s1))).
  { split; [|constructor]. constructor; [|constructor].
    cbn [range_in_region]. rewrite Sk.
    change (copy_loc (next_k a o s1))
      with (u32 (u32 (l1_buffer a + 33356) + db_act o)).
    rewrite local_off_slot by lia. cbn [region_lo region_hi]. lia. }
  assert (El : respects_layout a
                 (pi_cl_dma_memcpy Copy_lambda (next_lambda a o s1))).
  { split; [|constructor]. constructor; [|constructor].
    cbn [range_in_region]. rewrite Sl.
    change (copy_loc (next_lambda a o s1))
      with (u32 (u32 (l1_buffer a + 33616) + db_act o)).
    rewrite local_off_slot by lia. cbn [region_lo region_hi]. lia. }
  assert (Ey : respects_layout a (dory_dma_memcpy_3d_custom_blocking d)).
  { split; [|constructor]. constructor; [|constructor].
    cbn [dma_local_ranges]. rewrite Hdir. cbn [Z.eqb].
    cbn [range_in_region]. rewrite Hsize, Hloc.
    rewrite local_off_slot by lia. cbn [region_lo region_hi]. lia. }
  assert (EK : respects_layout a
                 (pulp_nn_depthwise_generic (kernel_args a o s1))).
  { split; [constructor|].
    cbn [kernel_pointers]. rewrite Kx, KW, Ky, Kk, Kl, Ki, Kp.
    rewrite !local_off_slot, local_off_base by lia.
    repeat (constructor; [cbn [pointer_in_region region_lo region_hi]; lia|]).
    constructor. }
  assert (Eb : respects_layout a pi_cl_team_barrier)
    by (split; constructor).
  assert (Ew : forall v c, respects_layout a (pi_cl_dma_wait v c))
    by (split; constructor).
  destruct (Z.of_nat n <? 7), (core =? 0); cbn [app andb];
    repeat (constructor; [assumption || apply Ew|]); constructor.
Qed.

(** C9.  The regions of the scratchpad (input [0, 16384), output
    [16388, 32772), weights [32776, 33352), multipliers [33356, 33612),
    shifts [33616, 33872), im2col [33896, 34352), pwt from 34352 on) are
    pairwise disjoint.  In the whole run, the local side of every DMA call
    lies in the region of its role, and so does every buffer pointer handed
    to the kernel; offsets are taken relative to [l1_buffer], modulo
    [2^32]. *)
Theorem scratchpad_layout_respected (core : Z) (a : layer_args) :
  (forall r1 r2 : role, r1 = r2 \/ disjoint_regions r1 r2) /\
  Forall (fun e => Forall range_in_region (dma_local_ranges a e) /\
                   Forall pointer_in_region (kernel_pointers a e))
         (layerConvDWBNRelu9 core a).
Proof.
  split.
  - intros r1 r2. unfold disjoint_regions, ends_before.
    destruct r1, r2; cbn; try (left; reflexivity); right; lia.
  - unfold layerConvDWBNRelu9. apply Forall_app. split.
    + apply respects_layout_prologue.
    + rewrite loop_traces_eq. apply Forall_concat, Forall_map.
      apply Forall_forall. intros n _. apply respects_layout_iter.
Qed.

(** ** C10 *)

Lemma chan_inv_reload (s : sched_state) :
  chan_inv s -> reload s = neq (_i_nof_load s) (_i_nof_exec s).
Proof.
  intros (Hl & He). unfold reload. rewrite Hl, He. apply orb_diag.
Qed.

Lemma chan_inv_advance (s : sched_state) :
  chan_inv s -> chan_inv (advance_load s).
Proof.
  unfold chan_inv, advance_load. cbn zeta. intros (Hl & He).
  destruct (_ =? 1); [destruct (_ =? 1)|]; cbn; split; congruence.
Qed.

Lemma chan_inv_db_update (s : sched_state) :
  chan_inv s -> chan_inv (db_update s).
Proof.
  unfold chan_inv, db_update. cbn zeta. intros H.
  destruct (reload _); exact H.
Qed.

Lemma chan_inv_prefetch (core : Z) (a : layer_args) (o : db_offsets)
    (s : sched_state) :
  chan_inv s -> chan_inv (fst (prefetch core a o s)).
Proof.
  destruct (prefetch_frame core a o s)
    as (_ & (F1 & F2 & _) & (F3 & F4 & _)).
  unfold chan_inv. rewrite F1, F2, F3, F4. tauto.
Qed.

Lemma chan_inv_update_exec (s : sched_state) :
  chan_inv s -> chan_inv (update_exec s).
Proof. unfold chan_inv. cbn. tauto. Qed.

Lemma chan_inv_set_iter (v : Z) (s : sched_state) :
  chan_inv s -> chan_inv (set_iter v s).
Proof. unfold chan_inv. cbn. tauto. Qed.

Lemma chan_inv_body_points (core : Z) (a : layer_args) (s : sched_state) :
  chan_inv s -> Forall chan_inv (body_points core a s).
Proof.
  intros H. unfold body_points. cbn zeta.
  pose proof (chan_inv_advance H) as H1.
  pose proof (chan_inv_db_update H1) as H2.
  pose proof (chan_inv_prefetch core a (db_offsets_of (advance_load s)) H2)
    as H3.
  pose proof (chan_inv_update_exec H3) as H4.
  constructor; [exact H|]. constructor; [exact H1|].
  constructor; [exact H2|]. constructor; [exact H3|].
  constructor; [exact H4|].
  constructor; [|constructor]. apply chan_inv_set_iter, H4.
Qed.

Lemma chan_inv_entry_state (core : Z) (a : layer_args) (n : nat) :
  chan_inv (entry_state core a n).
Proof.
  destruct (entry_state_at_tile core a n)
    as (_ & (L1 & L2 & _) & (E1 & E2 & _) & _).
  unfold chan_inv. split; congruence.
Qed.

Lemma chan_inv_program_points (core : Z) (a : layer_args) :
  Forall chan_inv (program_points core a).
Proof.
  unfold program_points. constructor; [split; reflexivity|].
  constructor.
  - unfold prologue. destruct (core =? 0); split; reflexivity.
  - apply Forall_concat, Forall_map, Forall_forall. intros n _.
    apply chan_inv_body_points, chan_inv_entry_state.
Qed.

(** The last point of an iteration is the entry point of the next one. *)
Lemma body_points_last (core : Z) (a : layer_args) (s : sched_state) :
  last (body_points core a s) s = next_state core a s.
Proof.
  unfold body_points, next_state. rewrite loop_body_fst. reflexivity.
Qed.

(** C10.  At every point between two steps of the run (the two states of
    the prologue and, in each of the eight iterations, the states on entry,
    after the advance of the load coordinate, after the parity updates,
    after the read-ahead, after the copy of the load coordinate into the
    exec coordinate and after [iter++]: fifty states), the input and output
    channel-block indices agree in the load coordinate and in the exec
    coordinate, and the reload test has the value of
    [_i_nof_load != _i_nof_exec]. *)
Theorem channel_block_indices_agree (core : Z) (a : layer_args) :
  length (program_points core a) = 50%nat /\
  Forall (fun s =>
            _i_nif_load s = _i_nof_load s /\
            _i_nif_exec s = _i_nof_exec s /\
            reload s = neq (_i_nof_load s) (_i_nof_exec s))
         (program_points core a).
Proof.
  split.
  - unfold program_points. change (Z.to_nat N_TILES) with 8%nat.
    rewrite map_seq8. reflexivity.
  - eapply Forall_impl; [|apply chan_inv_program_points].
    intros s H. pose proof (chan_inv_reload H) as R.
    destruct H as (Hl & He). tauto.
Qed.

(** * Further properties of the layer *)

(** ** Hand-over of the slots, in any state *)

Lemma advance_load_parities (s : sched_state) :
  db_state_x (advance_load s) = db_state_x s /\
  db_state_W (advance_load s) = db_state_W s /\
  db_state_y (advance_load s) = db_state_y s.
Proof.
  unfold advance_load. cbn zeta.
  destruct (_ =? 1); [destruct (_ =? 1)|]; repeat split.
Qed.

Lemma next_state_parities (core : Z) (a : layer_args) (s : sched_state) :
  db_state_x (next_state core a s) = lnot (db_state_x s) /\
  db_state_W (next_state core a s) =
    (if reload (advance_load s) then lnot (db_state_W s) else db_state_W s).
Proof.
  unfold next_state. rewrite loop_body_fst.
  destruct (prefetch_frame core a (db_offsets_of (advance_load s))
              (db_update (advance_load s))) as ((F1 & F2 & _) & _).
  destruct (advance_load_parities s) as (Ax & AW & _).
  split.
  - change (db_state_x (set_iter ?v (update_exec ?x))) with (db_state_x x).
    rewrite F1. unfold db_update. cbn zeta.
    destruct (reload _); cbn; rewrite Ax; reflexivity.
  - change (db_state_W (set_iter ?v (update_exec ?x))) with (db_state_W x).
    rewrite F2. unfold db_update. cbn zeta.
    change (reload (set_db_state_x ?v ?x)) with (reload x).
    destruct (reload (advance_load s)); cbn; rewrite AW; reflexivity.
Qed.

(** X1.  From any state, whatever the values of the parity variables: the
    exec offset of the input role in the next iteration is the load offset
    of this one; the exec offsets of the weight role and of the
    requantization role in the next iteration are the load offsets of this
    one when this iteration's reload test holds, and this iteration's exec
    offsets when it does not (the slot in use is kept). *)
Theorem slots_handed_over (core : Z) (a : layer_args) (s : sched_state) :
  let o := db_offsets_of (advance_load s) in
  let o' := db_offsets_of (advance_load (next_state core a s)) in
  exec_db_x o' = db_x o /\
  exec_db_W o' = (if reload (advance_load s) then db_W o else exec_db_W o) /\
  exec_db_act o' =
    (if reload (advance_load s) then db_act o else exec_db_act o) /\
  db_x o + exec_db_x o = 8192 /\
  db_W o + exec_db_W o = 288 /\
  db_act o + exec_db_act o = 128.
Proof.
  cbn zeta.
  destruct (advance_load_parities (next_state core a s)) as (Nx & NW & _).
  destruct (next_state_parities core a s) as (Px & PW).
  destruct (advance_load_parities s) as (Ax & AW & _).
  unfold db_offsets_of. cbn [exec_db_x exec_db_W exec_db_act db_x db_W db_act].
  rewrite Nx, NW, Px, PW, Ax, AW.
  split; [reflexivity|].
  unfold truthy, lnot.
  destruct (reload (advance_load s)), (db_state_x s =? 0),
    (db_state_W s =? 0); cbn; repeat split; reflexivity.
Qed.

(** ** Hand-over of the weight and requantization slots in the run *)

Lemma u32_idem (x : Z) : u32 (u32 x + 0) = u32 x.
Proof. rewrite u32_add_l, Z.add_0_r. reflexivity. Qed.

Lemma prologue_destinations (core : Z) (a : layer_args) :
  map dma_loc (weight_transfers (prologue_trace core a)) =
    [u32 (l1_buffer a + 32776)] /\
  map copy_loc (act_copies Copy_k (prologue_trace core a)) =
    (if core =? 0 then [u32 (l1_buffer a + 33356)] else []) /\
  map copy_loc (act_copies Copy_lambda (prologue_trace core a)) =
    (if core =? 0 then [u32 (l1_buffer a + 33616)] else []).
Proof.
  rewrite prologue_trace_eq. unfold prologue.
  destruct (core =? 0); cbn; rewrite u32_idem; repeat split.
Qed.

(** X2.  In every iteration the weight pointer given to the kernel is the
    local destination of the weight transfer issued just before (by the
    prologue for iteration 0, by iteration [n - 1] otherwise), and on core 0
    the multiplier and shift pointers are the local destinations of the two
    descriptor copies submitted there; the other cores submit none. *)
Theorem weight_slot_filled_by_previous_transfer (core : Z) (a : layer_args)
    (n : nat) :
  (n < 8)%nat ->
  let previous :=
    match n with
    | O => prologue_trace core a
    | S m => iter_events core a m
    end in
  let kernel := kernel_calls (iter_events core a n) in
  map dma_loc (weight_transfers previous) = map k_W kernel /\
  map copy_loc (act_copies Copy_k previous) =
    (if core =? 0 then map k_k kernel else []) /\
  map copy_loc (act_copies Copy_lambda previous) =
    (if core =? 0 then map k_lambda kernel else []).
Proof.
  intros Hn. cbn zeta. rewrite kernel_calls_iter. cbn [map].
  destruct (kernel_args_pointers a (iter_offsets core a n)
              (iter_state core a n)) as (_ & -> & _ & -> & -> & _).
  destruct n as [|m].
  - destruct (prologue_destinations core a) as (-> & -> & ->).
    rewrite iter_offsets_eq. cbn [Z.of_nat Z.even exec_db_W exec_db_act].
    rewrite !u32_idem. repeat split.
  - rewrite weight_transfers_iter, !act_copies_iter.
    assert ((Z.of_nat m <? 7) = true) as -> by (apply Z.ltb_lt; lia).
    rewrite db_act_next_iteration.
    rewrite !iter_offsets_eq. cbn zeta. rewrite even_of_nat_succ.
    cbn [andb map next_W next_k next_lambda dma_loc copy_loc db_W db_act
         exec_db_W].
    destruct (core =? 0), (Z.even (Z.of_nat m)); repeat split.
Qed.

Lemma weight_slot_filled_by_previous_transfer_witness :
  (5 < 8)%nat /\
  map dma_loc (weight_transfers (iter_events 0 sample_args 4)) =
  map k_W (kernel_calls (iter_events 0 sample_args 5)).
Proof.
  assert (H : (5 < 8)%nat) by lia.
  split; [exact H|].
  apply (weight_slot_filled_by_previous_transfer 0 sample_args H).
Defined.

(** ** Discipline of the two DMA descriptors *)

Lemma descr_ops_app (t1 t2 : list event) :
  descr_ops (t1 ++ t2) = descr_ops t1 ++ descr_ops t2.
Proof. apply filter_app. Qed.

Lemma descr_ops_concat (l : list (list event)) :
  descr_ops (concat l) = concat (map descr_ops l).
Proof. symmetry. apply concat_filter_map. Qed.

Lemma descr_ops_write_back (a : layer_args) (o : db_offsets)
    (s : sched_state) :
  is_descr_op (write_back a o s) = false.
Proof. reflexivity. Qed.

Lemma descr_ops_iter (core : Z) (a : layer_args) (n : nat) :
  descr_ops (iter_events core a n) =
  if (Z.of_nat n <? 7) && (core =? 0)
  then descr_round (next_k a (iter_offsets core a n) (iter_state core a n),
                    next_lambda a (iter_offsets core a n)
                      (iter_state core a n))
  else [].
Proof.
  rewrite iter_events_eq. cbn zeta.
  destruct (Z.of_nat n <? 7), (core =? 0);
    cbn [app andb descr_ops filter is_descr_op];
    rewrite descr_ops_write_back; reflexivity.
Qed.

(** X3.  In the whole run of a core, the calls on the two DMA descriptors
    are a sequence of complete round trips: the multipliers and the shifts
    are submitted, then both are waited for with the contents they were
    submitted with, before anything is submitted again.  Core 0 makes eight
    round trips and every other core none; no core waits for a descriptor
    it has not written. *)
Theorem descriptors_submitted_then_waited (core : Z) (a : layer_args) :
  exists rounds : list (pi_cl_dma_copy_t * pi_cl_dma_copy_t),
    descr_ops (layerConvDWBNRelu9 core a) = flat_map descr_round rounds /\
    length rounds = (if core =? 0 then 8%nat else 0%nat) /\
    map fst rounds = act_copies Copy_k (layerConvDWBNRelu9 core a) /\
    map snd rounds = act_copies Copy_lambda (layerConvDWBNRelu9 core a).
Proof.
  unfold layerConvDWBNRelu9. rewrite loop_traces_eq.
  rewrite descr_ops_app, descr_ops_concat, map_map, map_seq8.
  rewrite !act_copies_app, !act_copies_concat, !map_map, !map_seq8.
  rewrite !descr_ops_iter, !act_copies_iter.
  rewrite prologue_trace_eq. unfold prologue.
  cbn [Z.of_nat Pos.of_succ_nat Pos.succ Z.ltb Z.compare Pos.compare
       Pos.compare_cont andb].
  destruct (core =? 0); cbn [fst snd app concat].
  - eexists [(_, _); (_, _); (_, _); (_, _); (_, _); (_, _); (_, _); (_, _)].
    split; [reflexivity|]. split; [reflexivity|]. split; reflexivity.
  - exists []. repeat split.
Qed.

(** ** The cores run in lockstep *)

(** The calls of an iteration read the state through its indices only. *)
Lemma calls_read_indices (a : layer_args) (o : db_offsets)
    (s s' : sched_state) :
  indices s = indices s' ->
  next_x a o s = next_x a o s' /\ next_W a o s = next_W a o s' /\
  next_k a o s = next_k a o s' /\ next_lambda a o s = next_lambda a o s' /\
  kernel_args a o s = kernel_args a o s' /\
  write_back a o s = write_back a o s'.
Proof.
  unfold indices. intros H.
  injection H as _ E1 E2 E3 E4 E5 E6 E7 E8.
  unfold next_x, next_W, next_k, next_lambda, kernel_args, write_back.
  rewrite E1, E2, E3, E4, E5, E6, E7, E8. repeat split.
Qed.

Lemma indices_iter_state (core : Z) (a : layer_args) (n : nat) :
  indices (iter_state core a n) =
  [Z.of_nat n; Z.of_nat n + 1; Z.of_nat n + 1; 0; 0;
   Z.of_nat n; Z.of_nat n; 0; 0].
Proof. exact (indices_advance (entry_state_at_tile core a n)). Qed.

Lemma shared_calls_app (t1 t2 : list event) :
  shared_calls (t1 ++ t2) = shared_calls t1 ++ shared_calls t2.
Proof. apply filter_app. Qed.

Lemma shared_calls_concat (l : list (list event)) :
  shared_calls (concat l) = concat (map shared_calls l).
Proof. symmetry. apply concat_filter_map. Qed.

Lemma shared_calls_iter (core : Z) (a : layer_args) (n : nat) :
  let o := iter_offsets core a n in
  let s1 := iter_state core a n in
  shared_calls (iter_events core a n) =
  (if Z.of_nat n <? 7
   then [dory_dma_memcpy_3d_custom_hwc_to_chw (next_x a o s1);
         dory_dma_memcpy_3d_custom_blocking (next_W a o s1)]
   else []) ++
  [pi_cl_team_barrier; pulp_nn_depthwise_generic (kernel_args a o s1);
   pi_cl_team_barrier; write_back a o s1; pi_cl_team_barrier].
Proof.
  cbn zeta. rewrite iter_events_eq. cbn zeta.
  pose proof (descr_ops_write_back a (iter_offsets core a n)
                (iter_state core a n)) as Hw.
  destruct (Z.of_nat n <? 7), (core =? 0);
    cbn [app andb shared_calls filter is_descr_op negb];
    rewrite Hw; reflexivity.
Qed.

Lemma shared_calls_iter_core (core core' : Z) (a : layer_args) (n : nat) :
  shared_calls (iter_events core a n) = shared_calls (iter_events core' a n).
Proof.
  rewrite !shared_calls_iter. cbn zeta.
  assert (I : indices (iter_state core a n) = indices (iter_state core' a n))
    by (rewrite !indices_iter_state; reflexivity).
  assert (O : iter_offsets core a n = iter_offsets core' a n)
    by (rewrite !iter_offsets_eq; reflexivity).
  rewrite O.
  destruct (calls_read_indices a (iter_offsets core' a n) I)
    as (-> & -> & _ & _ & -> & ->).
  reflexivity.
Qed.

Lemma shared_calls_prologue (core : Z) (a : layer_args) :
  shared_calls (prologue_trace core a) =
  [pi_cl_team_barrier;
   dory_dma_memcpy_3d_custom_hwc_to_chw
     {| dma_ext := ExtAt (l2_x a);
        dma_loc := u32 (u32 (l1_buffer a + 0) + 0);
        dma_size := 8192; dma_stride_1 := 4096; dma_stride_0 := 256;
        dma_length_2 := 16; dma_length_0 := 32; dma_dir := 1 |};
   dory_dma_memcpy_3d_custom_blocking
     {| dma_ext := ExtAt (l2_W a);
        dma_loc := u32 (u32 (l1_buffer a + 32776) + 0);
        dma_size := 288; dma_stride_1 := 9; dma_stride_0 := 1;
        dma_length_2 := 32; dma_length_0 := 1; dma_dir := 1 |};
   pi_cl_team_barrier].
Proof.
  rewrite prologue_trace_eq. unfold prologue.
  destruct (core =? 0); reflexivity.
Qed.

Lemma barriers_iter (core : Z) (a : layer_args) (n : nat) :
  length (filter is_barrier (iter_events core a n)) = 3%nat.
Proof.
  rewrite iter_events_eq. cbn zeta.
  destruct (dir_write_back a (iter_offsets core a n) (iter_state core a n))
    as (d & -> & _).
  destruct (Z.of_nat n <? 7), (core =? 0); reflexivity.
Qed.

(** X4.  Two cores make the same calls, with the same arguments and in the
    same order, once the calls on the DMA descriptors (which only core 0
    makes) are set aside; in particular every core passes the same 26
    barriers, two in the prologue and three in each iteration. *)
Theorem cores_run_in_lockstep (core core' : Z) (a : layer_args) :
  shared_calls (layerConvDWBNRelu9 core a) =
    shared_calls (layerConvDWBNRelu9 core' a) /\
  length (filter is_barrier (layerConvDWBNRelu9 core a)) = 26%nat /\
  map (fun t => length (filter is_barrier t)) (loop_traces core a) =
    repeat 3%nat 8.
Proof.
  split; [|split].
  - unfold layerConvDWBNRelu9. rewrite !loop_traces_eq.
    rewrite !shared_calls_app, !shared_calls_concat, !map_map.
    rewrite !shared_calls_prologue. f_equal. f_equal.
    apply map_ext. intros n. apply shared_calls_iter_core.
  - unfold layerConvDWBNRelu9. rewrite loop_traces_eq.
    rewrite filter_app, length_app, <- concat_filter_map, map_map, map_seq8.
    cbn [concat]. rewrite !length_app, !barriers_iter.
    rewrite prologue_trace_eq. unfold prologue.
    destruct (core =? 0); reflexivity.
  - rewrite loop_traces_eq, map_map, map_seq8, !barriers_iter. reflexivity.
Qed.

(** ** The parameters the function reads *)

Lemma calls_read_used_args (a a' : layer_args) (o : db_offsets)
    (s : sched_state) :
  used_args_agree a a' ->
  next_x a o s = next_x a' o s /\ next_W a o s = next_W a' o s /\
  next_k a o s = next_k a' o s /\ next_lambda a o s = next_lambda a' o s /\
  kernel_args a o s = kernel_args a' o s /\
  write_back a o s = write_back a' o s.
Proof.
  intros (Hx & Hy & HW & Hl & Hm & Hs).
  unfold next_x, next_W, next_k, next_lambda, kernel_args, write_back.
  rewrite Hx, Hy, HW, Hl, Hm, Hs. repeat split.
Qed.

Lemma loop_body_used_args (core : Z) (a a' : layer_args) (s : sched_state) :
  used_args_agree a a' -> loop_body core a s = loop_body core a' s.
Proof.
  intros H. unfold loop_body, prefetch, compute. cbn zeta.
  set (s1 := db_update (advance_load s)).
  set (o := db_offsets_of (advance_load s)).
  destruct (calls_read_used_args o s1 H) as (-> & -> & -> & -> & Ek & Ew).
  destruct (iter s1 <? 8 * 1 * 1 - 1), (reload s1), (core =? 0);
    try (rewrite Ek, Ew; reflexivity).
  cbn zeta.
  destruct (calls_read_used_args o
              (set_copy_lambda (Some (next_lambda a' o s1))
                 (set_copy_k (Some (next_k a' o s1)) s1)) H)
    as (_ & _ & _ & _ & -> & ->).
  reflexivity.
Qed.

Lemma tile_loop_used_args (core : Z) (a a' : layer_args) (fuel : nat) :
  used_args_agree a a' ->
  forall s, tile_loop fuel core a s = tile_loop fuel core a' s.
Proof.
  intros H. induction fuel as [|fuel IH]; intros s; [reflexivity|].
  cbn [tile_loop]. rewrite (loop_body_used_args core s H).
  destruct (iter s <? 8 * 1 * 1); [|reflexivity].
  destruct (loop_body core a' s) as (s1, t). rewrite IH. reflexivity.
Qed.

Lemma prologue_used_args (core : Z) (a a' : layer_args) (s : sched_state) :
  used_args_agree a a' -> prologue core a s = prologue core a' s.
Proof.
  intros (Hx & Hy & HW & Hl & Hm & Hs). unfold prologue.
  rewrite Hx, HW, Hl. reflexivity.
Qed.

(** X5.  The calls of the layer depend on the parameter block only through
    [l2_x], [l2_y], [l2_W], [l1_buffer] and the low sixteen bits of
    [out_mult_in] and [out_shift_in]: two blocks that agree on these give
    the same run, whatever [l3_x], [l3_y], [l3_W], [l2_x_2], [hyperram],
    [inmul1], [inmul2] and the high bits of the two requantization words
    are. *)
Theorem run_reads_six_parameters (core : Z) (a a' : layer_args) :
  used_args_agree a a' ->
  layerConvDWBNRelu9 core a = layerConvDWBNRelu9 core a' /\
  final_state core a = final_state core a'.
Proof.
  intros H.
  assert (E : layer_run core a = layer_run core a').
  { unfold layer_run. rewrite (prologue_used_args core init_state H).
    destruct (prologue core a' init_state) as (s, t0).
    rewrite (tile_loop_used_args core _ H). reflexivity. }
  unfold layerConvDWBNRelu9, prologue_trace, loop_traces, final_state.
  rewrite E. split; reflexivity.
Qed.

Lemma run_reads_six_parameters_witness :
  used_args_agree sample_args
    {| l3_x := 7; l3_y := 8; l3_W := 9;
       l2_x := 469827584; l2_x_2 := 0; l2_y := 469893120;
       l2_W := 469762048; l1_buffer := 268435456; hyperram := 1;
       out_mult_in := 65537; inmul1 := 5; inmul2 := 6;
       out_shift_in := 65549 |} /\
  layerConvDWBNRelu9 0 sample_args =
  layerConvDWBNRelu9 0
    {| l3_x := 7; l3_y := 8; l3_W := 9;
       l2_x := 469827584; l2_x_2 := 0; l2_y := 469893120;
       l2_W := 469762048; l1_buffer := 268435456; hyperram := 1;
       out_mult_in := 65537; inmul1 := 5; inmul2 := 6;
       out_shift_in := 65549 |}.
Proof.
  assert (H : used_args_agree sample_args
                {| l3_x := 7; l3_y := 8; l3_W := 9;
                   l2_x := 469827584; l2_x_2 := 0; l2_y := 469893120;
                   l2_W := 469762048; l1_buffer := 268435456; hyperram := 1;
                   out_mult_in := 65537; inmul1 := 5; inmul2 := 6;
                   out_shift_in := 65549 |})
    by (repeat split).
  split; [exact H|].
  apply (run_reads_six_parameters 0 H).
Defined.

(** ** The memory map of the transfers *)

Lemma input_prefetches_app (t1 t2 : list event) :
  input_prefetches (t1 ++ t2) = input_prefetches t1 ++ input_prefetches t2.
Proof. apply flat_map_app. Qed.

Lemma write_backs_app (t1 t2 : list event) :
  write_backs (t1 ++ t2) = write_backs t1 ++ write_backs t2.
Proof. apply flat_map_app. Qed.

Lemma ext_off_base (a : layer_args) (c : Z) :
  0 <= c < 4294967296 -> u32 (u32 (l2_W a + c) - l2_W a) = c.
Proof. apply u32_local1. Qed.

(** Local side (and, for the descriptors, external side) of the calls of
    iteration [n]. *)
Lemma iter_ranges (core : Z) (a : layer_args) (n : nat) :
  (n < 8)%nat ->
  let o := iter_offsets core a n in
  let s1 := iter_state core a n in
  let even := Z.even (Z.of_nat n) in
  dma_local a (next_x a o s1) = (if even then 8192 else 0, 8192) /\
  dma_local a (next_W a o s1) = (if even then 33064 else 32776, 288) /\
  copy_range a (next_k a o s1) =
    (2304 + 128 * (Z.of_nat n + 1), if even then 33484 else 33356, 128) /\
  copy_range a (next_lambda a o s1) =
    (3328 + 128 * (Z.of_nat n + 1), if even then 33744 else 33616, 128) /\
  map (dma_local a) (write_backs (iter_events core a n)) = [(16388, 8192)].
Proof.
  intros Hn. cbn zeta.
  destruct (next_sizes a (iter_offsets core a n) (iter_state core a n))
    as (Sx & SW & Sk & Sl).
  destruct (copy_ext_next a (iter_offsets core a n) (iter_state core a n))
    as (Ek & El).
  destruct (write_backs_iter core a n) as (d & Hd & Hw).
  destruct (dir_write_back a (iter_offsets core a n) (iter_state core a n))
    as (d' & Hd' & _ & _ & Hloc & Hsize).
  rewrite Hd in Hd'. injection Hd' as <-.
  unfold dma_local, copy_range. rewrite Hw. cbn [map].
  rewrite Sx, SW, Sk, Sl, Ek, El, Hloc, Hsize, nof_load_iter.
  change (dma_loc (next_x a (iter_offsets core a n) (iter_state core a n)))
    with (u32 (u32 (l1_buffer a + 0) + db_x (iter_offsets core a n))).
  change (dma_loc (next_W a (iter_offsets core a n) (iter_state core a n)))
    with (u32 (u32 (l1_buffer a + 32776) + db_W (iter_offsets core a n))).
  change (copy_loc (next_k a (iter_offsets core a n) (iter_state core a n)))
    with (u32 (u32 (l1_buffer a + 33356) + db_act (iter_offsets core a n))).
  change (copy_loc
            (next_lambda a (iter_offsets core a n) (iter_state core a n)))
    with (u32 (u32 (l1_buffer a + 33616) + db_act (iter_offsets core a n))).
  rewrite <- !Z.add_assoc, !ext_off_base by lia.
  rewrite iter_offsets_eq. cbn zeta. cbn [db_x db_W db_act db_y].
  destruct (Z.even (Z.of_nat n)); rewrite !local_off_slot by lia;
    repeat split.
Qed.

Lemma prologue_ranges (core : Z) (a : layer_args) :
  map (dma_local a) (input_prefetches (prologue_trace core a)) =
    [(0, 8192)] /\
  map (dma_local a) (weight_transfers (prologue_trace core a)) =
    [(32776, 288)] /\
  write_backs (prologue_trace core a) = [] /\
  map (copy_range a) (act_copies Copy_k (prologue_trace core a)) =
    (if core =? 0 then [(2304, 33356, 128)] else []) /\
  map (copy_range a) (act_copies Copy_lambda (prologue_trace core a)) =
    (if core =? 0 then [(3328, 33616, 128)] else []).
Proof.
  rewrite prologue_trace_eq. unfold prologue.
  destruct (core =? 0);
    cbn [fst snd app input_prefetches weight_transfers write_backs act_copies
         flat_map dma_dir Z.eqb Pos.eqb copy_var_eqb map];
    unfold dma_local, copy_range;
    cbn [dma_loc dma_size copy_ext copy_loc copy_size];
    rewrite ?local_off_slot, ?local_off_base, ?ext_off_base by lia;
    repeat split.
Qed.

Ltac unroll_run :=
  unfold layerConvDWBNRelu9; rewrite loop_traces_eq;
  rewrite ?input_prefetches_app, ?weight_transfers_app, ?write_backs_app,
    ?act_copies_app, ?input_prefetches_concat, ?weight_transfers_concat,
    ?write_backs_concat, ?act_copies_concat, ?map_app, ?map_map, ?concat_map,
    ?map_map, ?map_seq8.

(** X6.  Local side of the 3D transfers of the whole run, as (offset in the
    scratchpad, bytes).  The eight input transfers (prologue, then seven
    read-aheads) alternate between the two adjacent slots of 8192 bytes at
    0 and 8192, starting with the first; the eight weight transfers
    alternate between the two adjacent slots of 288 bytes at 32776 and
    33064; the eight output write-backs all leave from the 8192 bytes at
    16388.  A transfer never reaches into the other slot of its role. *)
Theorem transfers_alternate_between_slots (core : Z) (a : layer_args) :
  let run := layerConvDWBNRelu9 core a in
  map (dma_local a) (input_prefetches run) =
    [(0, 8192); (8192, 8192); (0, 8192); (8192, 8192);
     (0, 8192); (8192, 8192); (0, 8192); (8192, 8192)] /\
  map (dma_local a) (weight_transfers run) =
    [(32776, 288); (33064, 288); (32776, 288); (33064, 288);
     (32776, 288); (33064, 288); (32776, 288); (33064, 288)] /\
  map (dma_local a) (write_backs run) = repeat (16388, 8192) 8.
Proof.
  cbn zeta.
  destruct (prologue_ranges core a) as (Px & PW & Py & _).
  split; [|split]; unroll_run.
  - rewrite Px, !input_prefetches_iter.
    cbn [Z.of_nat Pos.of_succ_nat Pos.succ Z.ltb Z.compare Pos.compare
         Pos.compare_cont map concat app].
    rewrite !(fun n H => proj1 (iter_ranges core a (n := n) H)) by lia.
    reflexivity.
  - rewrite PW, !weight_transfers_iter.
    cbn [Z.of_nat Pos.of_succ_nat Pos.succ Z.ltb Z.compare Pos.compare
         Pos.compare_cont map concat app].
    rewrite !(fun n H => proj1 (proj2 (iter_ranges core a (n := n) H)))
      by lia.
    reflexivity.
  - rewrite Py.
    rewrite !(fun n H =>
                proj2 (proj2 (proj2 (proj2 (iter_ranges core a (n := n) H)))))
      by lia.
    reflexivity.
Qed.

(** X7.  Both sides of the descriptor copies of core 0, as (offset from
    [l2_W], offset in the scratchpad, bytes).  The eight multiplier copies
    read the consecutive blocks of 128 bytes from 2304 up to 3328 and the
    eight shift copies those from 3328 up to 4352, each block once and in
    order; they land alternately in the two slots of 128 bytes of their
    role.  The other cores copy nothing. *)
Theorem requantization_blocks_copied_in_order (core : Z) (a : layer_args) :
  let run := layerConvDWBNRelu9 core a in
  map (copy_range a) (act_copies Copy_k run) =
    (if core =? 0
     then [(2304, 33356, 128); (2432, 33484, 128); (2560, 33356, 128);
           (2688, 33484, 128); (2816, 33356, 128); (2944, 33484, 128);
           (3072, 33356, 128); (3200, 33484, 128)]
     else []) /\
  map (copy_range a) (act_copies Copy_lambda run) =
    (if core =? 0
     then [(3328, 33616, 128); (3456, 33744, 128); (3584, 33616, 128);
           (3712, 33744, 128); (3840, 33616, 128); (3968, 33744, 128);
           (4096, 33616, 128); (4224, 33744, 128)]
     else []).
Proof.
  cbn zeta.
  destruct (prologue_ranges core a) as (_ & _ & _ & Pk & Pl).
  split; unroll_run.
  - rewrite Pk, !act_copies_iter.
    cbn [Z.of_nat Pos.of_succ_nat Pos.succ Z.ltb Z.compare Pos.compare
         Pos.compare_cont andb].
    destruct (core =? 0); cbn [map concat app]; [|reflexivity].
    rewrite !(fun n H =>
                proj1 (proj2 (proj2 (iter_ranges core a (n := n) H))))
      by lia.
    reflexivity.
  - rewrite Pl, !act_copies_iter.
    cbn [Z.of_nat Pos.of_succ_nat Pos.succ Z.ltb Z.compare Pos.compare
         Pos.compare_cont andb].
    destruct (core =? 0); cbn [map concat app]; [|reflexivity].
    rewrite !(fun n H =>
                proj1 (proj2 (proj2 (proj2 (iter_ranges core a (n := n) H)))))
      by lia.
    reflexivity.
Qed.

(** ** Tile geometry *)

Lemma kernel_sizes (a : layer_args) (o : db_offsets) (s : sched_state) :
  let k := kernel_args a o s in
  k_x_tile_size_w k = 16 /\ k_x_tile_size_h k = 16 /\
  k_x_tile_size_nif k = 32 /\ k_y_tile_size_nof k = 32 /\
  k_y_tile_size_w k = 16 /\ k_y_tile_size_h k = 16 /\
  k_dim_kernel_x k = 3 /\ k_dim_kernel_y k = 3.
Proof.
  unfold kernel_args.
  destruct (padding_flags (_i_h_exec s) (_i_w_exec s)) as [[[pt pb] pl] pr].
  cbn.
  destruct (_i_nif_exec s + 1 =? 8), (_i_nof_exec s + 1 =? 8),
    (_i_h_exec s + 1 =? 1), (_i_w_exec s + 1 =? 1); repeat split.
Qed.

(** X8.  At every tile coordinate, the tile dimensions handed to the kernel
    and the byte counts of the transfers agree: input width x height x
    channels is the size of an input read-ahead, output channels x 3 x 3 the
    size of a weight transfer, four bytes per output channel the size of
    each descriptor copy, and output width x height x channels the size of
    the write-back, which leaves from the very pointer the kernel wrote
    to. *)
Theorem kernel_and_transfers_agree_on_tiles (a : layer_args)
    (o o' : db_offsets) (s s' : sched_state) :
  let k := kernel_args a o s in
  k_x_tile_size_w k * k_x_tile_size_h k * k_x_tile_size_nif k =
    dma_size (next_x a o' s') /\
  k_y_tile_size_nof k * k_dim_kernel_x k * k_dim_kernel_y k =
    dma_size (next_W a o' s') /\
  4 * k_y_tile_size_nof k = copy_size (next_k a o' s') /\
  4 * k_y_tile_size_nof k = copy_size (next_lambda a o' s') /\
  exists d,
    write_back a o s = dory_dma_memcpy_3d_custom_blocking d /\
    dma_loc d = k_y k /\
    dma_size d = k_y_tile_size_w k * k_y_tile_size_h k * k_y_tile_size_nof k.
Proof.
  cbn zeta.
  destruct (kernel_sizes a o s) as (-> & -> & -> & -> & -> & -> & -> & ->).
  destruct (next_sizes a o' s') as (-> & -> & -> & ->).
  destruct (dir_write_back a o s) as (d & Hd & _ & _ & Hloc & Hsize).
  destruct (kernel_args_pointers a o s) as (_ & _ & Hy & _).
  repeat (split; [reflexivity|]).
  exists d. rewrite Hy, Hloc, Hsize. split; [exact Hd|]. split; reflexivity.
Qed.

(** ** Tile indices stay inside the grid *)

Lemma tile_in_grid_iter (core : Z) (a : layer_args) (n : nat) :
  (n < 8)%nat -> Forall tile_in_grid (iter_events core a n).
Proof.
  intros Hn.
  pose proof (indices_iter_state core a n) as I. unfold indices in I.
  injection I as _ L1 L2 L3 L4 E1 E2 E3 E4.
  rewrite iter_events_eq. cbn zeta.
  set (o := iter_offsets core a n) in *.
  set (s1 := iter_state core a n) in *.
  assert (Ex : Z.of_nat n < 7 ->
               tile_in_grid
                 (dory_dma_memcpy_3d_custom_hwc_to_chw (next_x a o s1))).
  { intros H7. cbn [tile_in_grid next_x dma_ext tile_k tile_i tile_j].
    rewrite L2, L3, L4. unfold GRID_NOF, GRID_H, GRID_W. lia. }
  assert (EW : Z.of_nat n < 7 ->
               tile_in_grid
                 (dory_dma_memcpy_3d_custom_blocking (next_W a o s1))).
  { intros H7.
    cbn [tile_in_grid next_W dma_ext dma_dir Z.eqb Pos.eqb tile_k tile_i
         tile_j].
    rewrite L1. unfold GRID_NOF. lia. }
  assert (Ey : tile_in_grid (write_back a o s1)).
  { cbn [tile_in_grid write_back dma_ext dma_dir Z.eqb tile_k tile_i tile_j].
    rewrite E1, E3, E4. unfold GRID_NOF, GRID_H, GRID_W. lia. }
  destruct (Z.ltb_spec (Z.of_nat n) 7) as [H7|H7], (core =? 0);
    cbn [app andb];
    repeat (constructor; [first [exact Ey | exact (Ex H7) | exact (EW H7)
                                | exact I]|]);
    constructor.
Qed.

(** X9.  Every tile address formed during the run has its indices inside
    the grid: channel block in [0, 8), height block and width block 0.  The
    load coordinate itself leaves the grid in the last iteration (channel
    block 8), where it is not used for any transfer. *)
Theorem tile_indices_inside_grid (core : Z) (a : layer_args) :
  Forall tile_in_grid (layerConvDWBNRelu9 core a) /\
  load_coord (iter_state core a 7) = (GRID_NOF, 0, 0) /\
  input_prefetches (iter_events core a 7) = [] /\
  weight_transfers (iter_events core a 7) = [].
Proof.
  split; [|split; [|split]].
  - unfold layerConvDWBNRelu9. apply Forall_app. split.
    + rewrite prologue_trace_eq. unfold prologue.
      destruct (core =? 0); cbn [fst snd app];
        repeat (constructor; [exact I|]); constructor.
    + rewrite loop_traces_eq. apply Forall_concat, Forall_map.
      apply Forall_forall. intros n Hn. apply in_seq in Hn.
      apply tile_in_grid_iter. lia.
  - destruct (iter_state_coords core a 7) as (H & _). exact H.
  - rewrite input_prefetches_iter. reflexivity.
  - rewrite weight_transfers_iter. reflexivity.
Qed.

(** ** The input tiles *)

Lemma next_x_ext_iter (core : Z) (a : layer_args) (n : nat) :
  dma_ext (next_x a (iter_offsets core a n) (iter_state core a n)) =
  ExtTile
    {| tile_base := l2_x a;
       tile_i := 0; tile_j := 0; tile_k := Z.of_nat n + 1;
       tile_size_i := 16; tile_size_j := 16; tile_size_k := 32;
       tile_stride_j := 16; tile_stride_k := 256;
       tile_overlap_i := 2; tile_overlap_j := 2; tile_overlap_k := 0;
       tile_offset_i := 0; tile_offset_j := 0; tile_offset_k := 0;
       tile_data_size := 8 |}.
Proof.
  pose proof (indices_iter_state core a n) as I. unfold indices in I.
  injection I as _ _ L2 L3 L4 _ _ _ _.
  cbn [next_x dma_ext]. rewrite L2, L3, L4. reflexivity.
Qed.

(** X10.  The input tensor is read one tile per transfer and in grid order:
    the prologue reads at the base of [l2_x], and the read-ahead of
    iteration [n] asks [dory_get_tile_3d] for channel block [n + 1] at height
    block 0 and width block 0, with overlaps 2, 2, 0 and, as no tile follows
    a border tile along a spatial axis, with no padding offset.  Each of the
    channel blocks 1 to 7 is read once, before the iteration that executes
    it. *)
Theorem input_tiles_read_once_in_order (core : Z) (a : layer_args) :
  map dma_ext (input_prefetches (layerConvDWBNRelu9 core a)) =
  ExtAt (l2_x a) ::
  map (fun c =>
         ExtTile
           {| tile_base := l2_x a;
              tile_i := 0; tile_j := 0; tile_k := c;
              tile_size_i := 16; tile_size_j := 16; tile_size_k := 32;
              tile_stride_j := 16; tile_stride_k := 256;
              tile_overlap_i := 2; tile_overlap_j := 2; tile_overlap_k := 0;
              tile_offset_i := 0; tile_offset_j := 0; tile_offset_k := 0;
              tile_data_size := 8 |})
      [1; 2; 3; 4; 5; 6; 7].
Proof.
  unroll_run.
  assert (P : map dma_ext (input_prefetches (prologue_trace core a)) =
              [ExtAt (l2_x a)]).
  { rewrite prologue_trace_eq. unfold prologue.
    destruct (core =? 0); reflexivity. }
  rewrite P, !input_prefetches_iter.
  cbn [Z.of_nat Pos.of_succ_nat Pos.succ Z.ltb Z.compare Pos.compare
       Pos.compare_cont map concat app].
  rewrite !next_x_ext_iter. reflexivity.
Qed.
